(** * CiteRAG: a shallow embedding of the chunker, the reranker, the
      embedding batcher and the answer synthesizer, with the properties of
      the specification proved (or refuted) against them.

    Conventions of the embedding.
    - Python [str] is [string]; a character is its code point (below 256).
    - Python [int] is [Z]; a JSON number (a relevance score, a temperature,
      a delay) is a canonical rational [Qc]: every finite float is one, and
      Python compares finite numbers by their mathematical value.
    - A Python [dict] with string keys is a [gmap string value].
    - A function that may raise returns a [py_result]; a function that
      talks to a remote service also returns the log of the requests it
      sent, and receives the service as a function from the attempt number
      and the request to either an error message or a response.
    - [print] calls are logging only and are left out. *)

From Stdlib Require Import Ascii String QArith Qcanon Sorted Permutation.
From stdpp Require Import gmap strings list fin_maps pretty numbers sorting.

Set Warnings "-register-all".
Open Scope Z_scope.

(** ** Python values, results and strings *)

Inductive value : Type :=
  | VNone
  | VBool (b : bool)
  | VInt (z : Z)
  | VNum (q : Qc)
  | VStr (s : string)
  | VDict (d : gmap string value).

Abbreviation pydict := (gmap string value).

Inductive exception : Type :=
  | ValueError (msg : string)
  | AttributeError (msg : string)
  | IndexError (msg : string)
  | KeyError (msg : string)
  | Exception (msg : string).

Inductive py_result (A : Type) : Type :=
  | Return (a : A)
  | Raise (e : exception).
Arguments Return {A} a.
Arguments Raise {A} e.

#[global] Instance py_result_ret : MRet py_result := fun _ a => Return a.
#[global] Instance py_result_bind : MBind py_result := fun _ _ f m =>
  match m with
  | Return a => f a
  | Raise e => Raise e
  end.
#[global] Instance py_result_fmap : FMap py_result := fun _ _ f m =>
  match m with
  | Return a => Return (f a)
  | Raise e => Raise e
  end.

(** [str.isspace] on one character of the Latin-1 range; the same class is
    [\s] of the [re] module on [str] patterns. *)
Definition py_isspace (c : ascii) : bool :=
  let n := nat_of_ascii c in
  (((9 <=? n) && (n <=? 13)) || ((28 <=? n) && (n <=? 32))
   || (n =? 133) || (n =? 160))%nat.

(** [\d] of the [re] module: the decimal digits (in the Latin-1 range these
    are 0..9 only). *)
Definition py_isdigit (c : ascii) : bool :=
  let n := nat_of_ascii c in ((48 <=? n) && (n <=? 57))%nat.

(** The character class [[A-Z]]. *)
Definition py_isupper_AZ (c : ascii) : bool :=
  let n := nat_of_ascii c in ((65 <=? n) && (n <=? 90))%nat.

Definition str_truthy (s : string) : bool :=
  match s with
  | EmptyString => false
  | String _ _ => true
  end.

Fixpoint lstrip (s : string) : string :=
  match s with
  | EmptyString => EmptyString
  | String c s' => if py_isspace c then lstrip s' else s
  end.

Fixpoint rstrip (s : string) : string :=
  match s with
  | EmptyString => EmptyString
  | String c s' =>
      let r := rstrip s' in
      if py_isspace c && negb (str_truthy r) then EmptyString else String c r
  end.

(** [s.strip()] *)
Definition strip (s : string) : string := rstrip (lstrip s).

(** [sep.join(parts)] *)
Fixpoint join (sep : string) (parts : list string) : string :=
  match parts with
  | [] => EmptyString
  | [p] => p
  | p :: rest => p +:+ sep +:+ join sep rest
  end.

(** Truth value of a Python object, as [if x:] and [x or y] take it. *)
Definition truthy (v : value) : bool :=
  match v with
  | VNone => false
  | VBool b => b
  | VInt z => negb (z =? 0)
  | VNum q => negb (Qeq_bool q 0)
  | VStr s => str_truthy s
  | VDict d => negb (bool_decide (d = ∅))
  end.

(** [l[i]] for a Python list: a negative index counts from the end, an
    index out of range raises [IndexError]. *)
Definition py_index {A} (l : list A) (i : Z) : py_result A :=
  let n := Z.of_nat (length l) in
  let j := if i <? 0 then i + n else i in
  if (0 <=? j) && (j <? n) then
    match l !! Z.to_nat j with
    | Some a => Return a
    | None => Raise (IndexError "list index out of range")
    end
  else Raise (IndexError "list index out of range").

(** [l[:k]] for a Python list: a negative bound counts from the end. *)
Definition py_slice_to {A} (l : list A) (k : Z) : list A :=
  if 0 <=? k then take (Z.to_nat k) l
  else take (length l - Z.to_nat (- k)) l.

(** [x or default] for an optional integer argument: [None] and [0] are
    both falsy. *)
Definition int_or (x : option Z) (default : Z) : Z :=
  match x with
  | Some k => if k =? 0 then default else k
  | None => default
  end.

(** ** Chunker: [app/services/chunker.py] *)

Module Chunker.

Record ChunkMetadata : Type := {
  source : string;
  title : option string;
  section : option string;
  position : Z;
  token_count : Z
}.

Record TextChunk : Type := {
  text : string;
  metadata : ChunkMetadata
}.

(** The fields of [TextChunker] set by [__init__]; the tiktoken encoder is
    the section variable [encode] below. *)
Record TextChunker : Type := {
  chunk_size : Z;
  chunk_overlap : Z
}.

(** The state of the main loop of [chunk_text]. *)
Record loop_state : Type := {
  chunks : list TextChunk;
  current_chunk_sentences : list string;
  current_token_count : Z;
  next_position : Z
}.

(** *** [split_into_sentences] *)

Definition is_terminal (c : ascii) : bool :=
  match c with
  | "."%char | "!"%char | "?"%char => true
  | _ => false
  end.

(** The white space at the head of [s], and what follows it. *)
Fixpoint span_space (s : string) : string * string :=
  match s with
  | EmptyString => (EmptyString, EmptyString)
  | String c s' =>
      if py_isspace c then
        let '(ws, rest) := span_space s' in (String c ws, rest)
      else (EmptyString, s)
  end.

Fixpoint last_char (d : ascii) (s : string) : ascii :=
  match s with
  | EmptyString => d
  | String c s' => last_char c s'
  end.

(** A match of [(?<=[.!?])\s+(?=[A-Z])|(?<=[.!?])$] at the head of [s],
    where [prev] is the character before it: the matched text and the rest.
    The greedy [\s+] takes the whole run of white space (a shorter run is
    followed by white space, not by a capital); [$] holds at the end of the
    text and before a final newline. *)
Definition match_boundary (prev : option ascii) (s : string)
  : option (string * string) :=
  match prev with
  | Some p =>
      if is_terminal p then
        match span_space s with
        | (String w ws, String u rest) =>
            if py_isupper_AZ u then Some (String w ws, String u rest)
            else None
        | _ =>
            match s with
            | EmptyString => Some (EmptyString, s)
            | String "010" EmptyString => Some (EmptyString, s)
            | _ => None
            end
        end
      else None
  | None => None
  end.

(** [re.split(pattern, s)]: the pieces between the matches, from left to
    right. After an empty match the search moves one character on.
    [piece] is the text since the last match. *)
Fixpoint split_fuel (fuel : nat) (prev : option ascii) (s piece : string)
  : list string :=
  match fuel with
  | O => [piece +:+ s]
  | S fuel' =>
      match match_boundary prev s with
      | Some (String w ws, rest) =>
          piece :: split_fuel fuel' (Some (last_char w ws)) rest EmptyString
      | Some (EmptyString, _) =>
          match s with
          | EmptyString => [piece; EmptyString]
          | String c s' =>
              piece :: split_fuel fuel' (Some c) s' (String c EmptyString)
          end
      | None =>
          match s with
          | EmptyString => [piece]
          | String c s' =>
              split_fuel fuel' (Some c) s' (piece +:+ String c EmptyString)
          end
      end
  end.

Definition re_split (s : string) : list string :=
  split_fuel (S (String.length s)) None s EmptyString.

Definition split_into_sentences (text : string) : list string :=
  let sentences := re_split text in
  strip <$> filter (fun s => str_truthy (strip s) = true) sentences.

Section Service.

(** [self.encoder.encode]: the tiktoken encoding, text to token ids. *)
Variable encode : string -> list nat.

Variable self : TextChunker.

Definition count_tokens (text : string) : Z :=
  Z.of_nat (length (encode text)).

Definition mk_chunk (source : string) (title section : option string)
    (chunk_text : string) (position token_count : Z) : TextChunk :=
  {| text := chunk_text;
     metadata := {| source := source; title := title; section := section;
                    position := position; token_count := token_count |} |}.

(** The inner loop over [reversed(current_chunk_sentences)]. *)
Fixpoint overlap_loop (reversed_sentences overlap_sentences : list string)
    (overlap_tokens : Z) : list string * Z :=
  match reversed_sentences with
  | [] => (overlap_sentences, overlap_tokens)
  | s :: rest =>
      let s_tokens := count_tokens s in
      if overlap_tokens + s_tokens <=? chunk_overlap self then
        overlap_loop rest (s :: overlap_sentences) (overlap_tokens + s_tokens)
      else (overlap_sentences, overlap_tokens)
  end.

Definition overlap_seed (current : list string) : list string * Z :=
  overlap_loop (reverse current) [] 0.

Definition nonempty {A} (l : list A) : bool :=
  match l with
  | [] => false
  | _ :: _ => true
  end.

(** One iteration of [for sentence in sentences]. *)
Definition step (source : string) (title section : option string)
    (st : loop_state) (sentence : string) : loop_state :=
  let sentence_tokens := count_tokens sentence in
  if chunk_size self <? sentence_tokens then
    let st1 :=
      if nonempty (current_chunk_sentences st) then
        {| chunks := chunks st ++
             [mk_chunk source title section
                (join " " (current_chunk_sentences st))
                (next_position st) (current_token_count st)];
           current_chunk_sentences := [];
           current_token_count := 0;
           next_position := next_position st + 1 |}
      else st in
    {| chunks := chunks st1 ++
         [mk_chunk source title section sentence
            (next_position st1) sentence_tokens];
       current_chunk_sentences := current_chunk_sentences st1;
       current_token_count := current_token_count st1;
       next_position := next_position st1 + 1 |}
  else
    let potential_token_count := current_token_count st + sentence_tokens in
    let st1 :=
      if (chunk_size self <? potential_token_count)
         && nonempty (current_chunk_sentences st) then
        let '(overlap_sentences, overlap_tokens) :=
          overlap_seed (current_chunk_sentences st) in
        {| chunks := chunks st ++
             [mk_chunk source title section
                (join " " (current_chunk_sentences st))
                (next_position st) (current_token_count st)];
           current_chunk_sentences := overlap_sentences;
           current_token_count := overlap_tokens;
           next_position := next_position st + 1 |}
      else st in
    {| chunks := chunks st1;
       current_chunk_sentences := current_chunk_sentences st1 ++ [sentence];
       current_token_count := current_token_count st1 + sentence_tokens;
       next_position := next_position st1 |}.

Definition initial_state : loop_state :=
  {| chunks := []; current_chunk_sentences := [];
     current_token_count := 0; next_position := 0 |}.

Definition run_loop (source : string) (title section : option string)
    (sentences : list string) (st : loop_state) : loop_state :=
  fold_left (step source title section) sentences st.

(** The last [if] of [chunk_text]: the pending chunk, if any. *)
Definition final_chunks (source : string) (title section : option string)
    (st : loop_state) : list TextChunk :=
  if nonempty (current_chunk_sentences st) then
    chunks st ++
      [mk_chunk source title section
         (join " " (current_chunk_sentences st))
         (next_position st) (current_token_count st)]
  else chunks st.

(** The sentences [chunk_text] packs: those of the splitter, or the whole
    text when there are none. *)
Definition sentences_of (text : string) : list string :=
  let sentences := split_into_sentences text in
  if nonempty sentences then sentences else [text].

Definition chunk_text (text source : string) (title section : option string)
  : list TextChunk :=
  if negb (str_truthy (strip text)) then []
  else
    final_chunks source title section
      (run_loop source title section (sentences_of text) initial_state).

End Service.

(** An optional string as a Python value. *)
Definition opt_str (o : option string) : value :=
  match o with
  | Some s => VStr s
  | None => VNone
  end.

(** [chunk_to_dict] *)
Definition chunk_to_dict (chunk : TextChunk) : pydict :=
  <["text" := VStr (text chunk)]>
  (<["metadata" :=
      VDict
        (<["source" := VStr (source (metadata chunk))]>
        (<["title" := opt_str (title (metadata chunk))]>
        (<["section" := opt_str (section (metadata chunk))]>
        (<["position" := VInt (position (metadata chunk))]>
        (<["token_count" := VInt (token_count (metadata chunk))]> ∅)))))]> ∅).

End Chunker.

(** ** Events of the services that call a remote API with retries *)

(** A request sent with [requests.post], or a [time.sleep]. *)
Inductive event (P : Type) : Type :=
  | EPost (payload : P)
  | ESleep (seconds : Qc).
Arguments EPost {P} payload.
Arguments ESleep {P} seconds.

Definition Qc_of_Z (z : Z) : Qc := Q2Qc (inject_Z z).

(** ** Embedder: [app/services/embedding_service.py] *)

Module Embedding.

Record EmbeddingService : Type := {
  model : string;
  max_retries : Z;
  retry_delay : Qc
}.

Record payload : Type := {
  payload_model : string;
  payload_input : list string
}.

Definition embedding : Type := list Qc.

Section Service.

(** The embeddings API: the attempt number and the payload give either
    the text of the exception raised inside the [try] (by the request, by
    [raise_for_status] or by reading the response) or the list
    [[item["embedding"] for item in response.json()["data"]]]. *)
Variable post : nat -> payload -> string + list embedding.

Variable self : EmbeddingService.

Fixpoint attempts (remaining attempt : nat) (valid_texts : list string)
  : py_result (option (list embedding)) * list (event payload) :=
  match remaining with
  | O => (Return None, [])
  | S remaining' =>
      let p := {| payload_model := model self;
                  payload_input := valid_texts |} in
      match post attempt p with
      | inr embeddings => (Return (Some embeddings), [EPost p])
      | inl e =>
          if Z.of_nat attempt <? max_retries self - 1 then
            let '(r, log) := attempts remaining' (S attempt) valid_texts in
            (r, EPost p
                :: ESleep (retry_delay self * Qc_of_Z (Z.of_nat attempt + 1))%Qc
                :: log)
          else
            (Raise (Exception
               ("Failed to generate batch embeddings after "
                +:+ pretty (max_retries self) +:+ " attempts: " +:+ e)),
             [EPost p])
      end
  end.

Definition is_valid_text (t : string) : bool :=
  str_truthy t && str_truthy (strip t).

Definition generate_embeddings_batch (texts : list string)
  : py_result (option (list embedding)) * list (event payload) :=
  match texts with
  | [] => (Return (Some []), [])
  | _ :: _ =>
      let valid_texts := filter (fun t => is_valid_text t = true) texts in
      match valid_texts with
      | [] => (Raise (ValueError "No valid texts to embed"), [])
      | _ :: _ => attempts (Z.to_nat (max_retries self)) 0 valid_texts
      end
  end.

(** The retry loop of [generate_embedding]; the embedding read from the
    response is [data[0]["embedding"]], and a response without data raises
    [IndexError] inside the [try]. *)
Fixpoint attempts_one (remaining attempt : nat) (text : string)
  : py_result (option embedding) * list (event payload) :=
  match remaining with
  | O => (Return None, [])
  | S remaining' =>
      let p := {| payload_model := model self; payload_input := [text] |} in
      let outcome :=
        match post attempt p with
        | inr (e :: _) => inr e
        | inr [] => inl "list index out of range"%string
        | inl e => inl e
        end in
      match outcome with
      | inr e => (Return (Some e), [EPost p])
      | inl e =>
          if Z.of_nat attempt <? max_retries self - 1 then
            let '(r, log) := attempts_one remaining' (S attempt) text in
            (r, EPost p
                :: ESleep (retry_delay self * Qc_of_Z (Z.of_nat attempt + 1))%Qc
                :: log)
          else
            (Raise (Exception
               ("Failed to generate embedding after "
                +:+ pretty (max_retries self) +:+ " attempts: " +:+ e)),
             [EPost p])
      end
  end.

Definition generate_embedding (text : string)
  : py_result (option embedding) * list (event payload) :=
  if negb (str_truthy text) || negb (str_truthy (strip text)) then
    (Raise (ValueError "Cannot generate embedding for empty text"), [])
  else attempts_one (Z.to_nat (max_retries self)) 0 text.

End Service.

End Embedding.

(** ** Reranker: [app/services/reranker_service.py] *)

Module Reranker.

Record RerankerService : Type := {
  model : string;
  top_k : Z;
  max_retries : Z;
  retry_delay : Qc
}.

Record payload : Type := {
  payload_model : string;
  payload_query : string;
  payload_documents : list value;
  payload_top_k : Z
}.

(** The returned dictionary, one field per key. *)
Record rerank_result : Type := {
  reranked_chunks : list pydict;
  rerank_scores : list Qc;
  count : Z;
  metadata : pydict
}.

(** [x["reranker_score"]], the sort key; the loop sets it on every chunk
    it sorts, so that the default is never taken there. *)
Definition reranker_score (x : pydict) : Qc :=
  match x !! "reranker_score" with
  | Some (VNum q) => q
  | _ => Q2Qc 0
  end.

(** [sorted(l, key=key, reverse=True)]: descending by key, and elements
    with equal keys stay in the order they have in [l] (Python's sort is
    stable, also with [reverse=True]). *)
Fixpoint insert_desc {A} (key : A -> Qc) (x : A) (l : list A) : list A :=
  match l with
  | [] => [x]
  | y :: l' =>
      if decide (key x < key y)%Qc then y :: insert_desc key x l'
      else x :: y :: l'
  end.

Fixpoint sorted_reverse {A} (key : A -> Qc) (l : list A) : list A :=
  match l with
  | [] => []
  | x :: l' => insert_desc key x (sorted_reverse key l')
  end.

Section Service.

(** The rerank API: the attempt number and the payload give either the
    text of the exception raised by the request or by [raise_for_status],
    or [results.get("results", [])] as pairs of ["index"] and
    ["relevance_score"]. *)
Variable post : nat -> payload -> string + list (Z * Qc).

Variable self : RerankerService.

(** [[chunk["text"] for chunk in chunks]] *)
Fixpoint texts_of (chunks : list pydict) : py_result (list value) :=
  match chunks with
  | [] => Return []
  | chunk :: rest =>
      match chunk !! "text" with
      | Some t => ts ← texts_of rest; Return (t :: ts)
      | None => Raise (KeyError "'text'")
      end
  end.

(** The loop over the results: every score goes to the chunk at the
    returned index. *)
Fixpoint reassociate (chunks : list pydict) (results : list (Z * Qc))
    (reranked : list pydict) (all_scores : list Qc)
  : py_result (list pydict * list Qc) :=
  match results with
  | [] => Return (reranked, all_scores)
  | (idx, score) :: rest =>
      chunk ← py_index chunks idx;
      let reranked_chunk := <["reranker_score" := VNum score]> chunk in
      reassociate chunks rest (reranked ++ [reranked_chunk])
        (all_scores ++ [score])
  end.

Definition success_result (chunks : list pydict) (top_k : Z)
    (reranked : list pydict) (all_scores : list Qc) : rerank_result :=
  let reranked := sorted_reverse reranker_score reranked in
  let final_chunks := py_slice_to reranked top_k in
  {| reranked_chunks := final_chunks;
     rerank_scores := all_scores;
     count := Z.of_nat (length final_chunks);
     metadata :=
       <["model" := VStr (model self)]>
       (<["original_count" := VInt (Z.of_nat (length chunks))]>
       (<["final_count" := VInt (Z.of_nat (length final_chunks))]>
       (<["top_k" := VInt top_k]> ∅))) |}.

Definition fallback_result (chunks : list pydict) (top_k : Z) (e : string)
  : rerank_result :=
  {| reranked_chunks := py_slice_to chunks top_k;
     rerank_scores := [];
     count := Z.min (Z.of_nat (length chunks)) top_k;
     metadata :=
       <["model" := VStr (model self)]>
       (<["fallback" := VBool true]>
       (<["error" := VStr e]> ∅)) |}.

(** The body of the [try]: the request, then the loop over its results;
    an exception of either is caught by the same [except]. *)
Definition try_attempt (attempt : nat) (p : payload) (chunks : list pydict)
    (top_k : Z) : string + rerank_result :=
  match post attempt p with
  | inl e => inl e
  | inr results =>
      match reassociate chunks results [] [] with
      | Return (reranked, all_scores) =>
          inr (success_result chunks top_k reranked all_scores)
      | Raise _ => inl "list index out of range"
      end
  end.

Fixpoint attempts (remaining attempt : nat) (p : payload)
    (chunks : list pydict) (top_k : Z)
  : option rerank_result * list (event payload) :=
  match remaining with
  | O => (None, [])
  | S remaining' =>
      match try_attempt attempt p chunks top_k with
      | inr r => (Some r, [EPost p])
      | inl e =>
          if Z.of_nat attempt <? max_retries self - 1 then
            let '(r, log) := attempts remaining' (S attempt) p chunks top_k in
            (r, EPost p
                :: ESleep (retry_delay self * Qc_of_Z (Z.of_nat attempt + 1))%Qc
                :: log)
          else (Some (fallback_result chunks top_k e), [EPost p])
      end
  end.

(** The JSON body of the request. *)
Definition make_payload (query : string) (chunks : list pydict)
    (texts : list value) : payload :=
  {| payload_model := model self;
     payload_query := query;
     payload_documents := (fun t => VDict {[ "text" := t ]}) <$> texts;
     payload_top_k := Z.of_nat (length chunks) |}.

Definition rerank (query : string) (chunks : list pydict)
    (top_k_arg : option Z)
  : py_result (option rerank_result) * list (event payload) :=
  if negb (str_truthy query) || negb (str_truthy (strip query)) then
    (Raise (ValueError "Query cannot be empty"), [])
  else
    match chunks with
    | [] => (Raise (ValueError "No chunks to rerank"), [])
    | _ :: _ =>
        let top_k := int_or top_k_arg (top_k self) in
        match texts_of chunks with
        | Raise e => (Raise e, [])
        | Return texts =>
            let '(r, log) :=
              attempts (Z.to_nat (max_retries self)) 0
                (make_payload query chunks texts) chunks top_k in
            (Return r, log)
        end
    end.

End Service.

End Reranker.

(** ** Answer synthesizer: [app/services/llm_service.py] *)

Module LLM.

(** The fields of [LLMService] set by [__init__] (the API key and the
    client handle are the remote service, modelled by [create] below). *)
Record LLMService : Type := {
  model : string;
  temperature : Qc;
  max_tokens : Z;
  max_retries : Z
}.

(** The arguments of [client.chat.completions.create]. *)
Record request : Type := {
  req_model : string;
  req_content : string;
  req_temperature : Qc;
  req_max_tokens : Z
}.

(** What the code reads from the response: [choices[0].message.content]
    and, when the attribute is there, [usage.completion_tokens]. *)
Record completion : Type := {
  content : string;
  usage : option Z
}.

(** The returned dictionary, one field per key. *)
Record answer_result : Type := {
  answer : string;
  citations : list pydict;
  chunk_count : Z;
  result_model : string;
  metadata : pydict
}.

Definition no_information : string :=
  "No relevant information found in the provided sources.".

Definition apology : string :=
  "I apologize, but I encountered an error while processing your query. Please try again.".

Section Service.

(** [str(x)] inside an f-string, for the values a chunk's metadata holds. *)
Variable py_str : value -> string.

(** The language model behind the client: the attempt number and the
    request give either the text of the exception or a completion. *)
Variable create : nat -> request -> string + completion.

Variable self : LLMService.

Definition dict_get (d : pydict) (k : string) (default : value) : value :=
  match d !! k with
  | Some v => v
  | None => default
  end.

(** One source of [_format_sources]; [chunk.get("metadata", {})] must be a
    dictionary for the following [.get] calls. *)
Definition format_source (i : nat) (chunk : pydict) : py_result string :=
  md ← match dict_get chunk "metadata" (VDict ∅) with
       | VDict d => Return d
       | _ => Raise (AttributeError "object has no attribute 'get'")
       end;
  let title := dict_get md "title" (VStr "Source") in
  let section := dict_get md "section" (VStr "") in
  let text := dict_get chunk "text" (VStr "") in
  let source_header := "[" +:+ pretty i +:+ "] " +:+ py_str title in
  let source_header :=
    if truthy section then source_header +:+ " - " +:+ py_str section
    else source_header in
  Return (source_header +:+ String "010" (py_str text)).

Fixpoint format_sources_from (i : nat) (chunks : list pydict)
  : py_result (list string) :=
  match chunks with
  | [] => Return []
  | chunk :: rest =>
      s ← format_source i chunk;
      ss ← format_sources_from (S i) rest;
      Return (s :: ss)
  end.

Definition _format_sources (chunks : list pydict) : py_result string :=
  sources ← format_sources_from 1 chunks;
  Return (join (String "010" (String "010" "")) sources).

Definition nl : string := String "010" "".

Definition _construct_prompt (query sources_text : string) : string :=
  "You are a helpful AI assistant. Answer the question based on the provided sources below."
  +:+ nl +:+ nl +:+
  "IMPORTANT RULES:" +:+ nl +:+
  "1. Base your answer primarily on the numbered sources [1], [2], etc." +:+ nl +:+
  "2. Include citations using [1], [2], etc. after sentences that reference a source." +:+ nl +:+
  "3. Synthesize information across multiple sources when relevant." +:+ nl +:+
  "4. If the sources provide partial information, answer what you can and note any gaps." +:+ nl +:+
  "5. Only if the sources contain NO relevant information at all, say " +:+
  String (ascii_of_nat 34) "I cannot find this information in the provided sources." +:+
  String (ascii_of_nat 34) "" +:+ nl +:+
  "6. Be concise, accurate, and helpful." +:+ nl +:+ nl +:+
  "SOURCES:" +:+ nl +:+ sources_text +:+ nl +:+ nl +:+
  "QUESTION: " +:+ query +:+ nl +:+ nl +:+ "ANSWER:".

(** *** [_extract_citations] *)

(** The digits at the head of [s], and what follows them. *)
Fixpoint span_digits (s : string) : string * string :=
  match s with
  | EmptyString => (EmptyString, EmptyString)
  | String c s' =>
      if py_isdigit c then
        let '(ds, rest) := span_digits s' in (String c ds, rest)
      else (EmptyString, s)
  end.

(** A match of [\[(\d+)\]] at the head of [s]: the group and the rest. *)
Definition match_citation (s : string) : option (string * string) :=
  match s with
  | String "[" s' =>
      match span_digits s' with
      | (String d ds, String "]" rest) => Some (String d ds, rest)
      | _ => None
      end
  | _ => None
  end.

(** [re.findall(r'\[(\d+)\]', s)]: leftmost matches, not overlapping;
    every step consumes a character, so [length s] steps are enough. *)
Fixpoint findall_fuel (fuel : nat) (s : string) : list string :=
  match fuel with
  | O => []
  | S fuel' =>
      match match_citation s with
      | Some (group, rest) => group :: findall_fuel fuel' rest
      | None =>
          match s with
          | EmptyString => []
          | String _ s' => findall_fuel fuel' s'
          end
      end
  end.

Definition findall_citations (s : string) : list string :=
  findall_fuel (String.length s) s.

(** [int(num_str)] on a string of decimal digits. *)
Definition digit_value (c : ascii) : Z := Z.of_nat (nat_of_ascii c) - 48.

Fixpoint int_of_digits_from (acc : Z) (s : string) : Z :=
  match s with
  | EmptyString => acc
  | String c s' => int_of_digits_from (10 * acc + digit_value c) s'
  end.

Definition py_int (s : string) : Z := int_of_digits_from 0 s.

(** The first loop: distinct numbers, in order of first appearance. *)
Fixpoint cited_loop (citation_numbers : list string)
    (cited_indices : list Z) (seen : gset Z) : list Z :=
  match citation_numbers with
  | [] => cited_indices
  | num_str :: rest =>
      let num := py_int num_str in
      if decide (num ∈ seen) then cited_loop rest cited_indices seen
      else cited_loop rest (cited_indices ++ [num]) (seen ∪ {[num]})
  end.

(** The second loop: bind every number in range to a copy of its chunk. *)
Fixpoint map_loop (chunks : list pydict) (cited_indices : list Z)
    (citations : list pydict) : list pydict :=
  match cited_indices with
  | [] => citations
  | citation_num :: rest =>
      let chunk_idx := citation_num - 1 in
      if (0 <=? chunk_idx) && (chunk_idx <? Z.of_nat (length chunks)) then
        match chunks !! Z.to_nat chunk_idx with
        | Some chunk =>
            let citation := <["citation_number" := VInt citation_num]> chunk in
            map_loop chunks rest (citations ++ [citation])
        | None => map_loop chunks rest citations
        end
      else map_loop chunks rest citations
  end.

Definition _extract_citations (answer_text : string) (chunks : list pydict)
  : list pydict :=
  let citation_numbers := findall_citations answer_text in
  let cited_indices := cited_loop citation_numbers [] ∅ in
  map_loop chunks cited_indices [].

(** *** [generate_answer] *)

Definition success_result (chunks : list pydict) (max_tokens : Z)
    (message : completion) : answer_result :=
  let answer_text := strip (content message) in
  let citations := _extract_citations answer_text chunks in
  {| answer := answer_text;
     citations := citations;
     chunk_count := Z.of_nat (length chunks);
     result_model := model self;
     metadata :=
       <["temperature" := VNum (temperature self)]>
       (<["max_tokens" := VInt max_tokens]>
       (<["tokens_used" := VInt (default 0 (usage message))]> ∅)) |}.

Definition fallback_result (chunks : list pydict) (e : string)
  : answer_result :=
  {| answer := apology;
     citations := [];
     chunk_count := Z.of_nat (length chunks);
     result_model := model self;
     metadata := <["error" := VStr e]> (<["fallback" := VBool true]> ∅) |}.

(** [for attempt in range(self.max_retries)], from [attempt] on, with
    [remaining] iterations left; falling out of the loop returns [None]. *)
Fixpoint attempts (remaining : nat) (attempt : nat) (req : request)
    (chunks : list pydict) : option answer_result * list request :=
  match remaining with
  | O => (None, [])
  | S remaining' =>
      match create attempt req with
      | inr message =>
          (Some (success_result chunks (req_max_tokens req) message), [req])
      | inl e =>
          if Z.of_nat attempt <? max_retries self - 1 then
            let '(r, log) := attempts remaining' (S attempt) req chunks in
            (r, req :: log)
          else (Some (fallback_result chunks e), [req])
      end
  end.

Definition generate_answer (query : string) (chunks : list pydict)
    (max_tokens_arg : option Z)
  : py_result (option answer_result) * list request :=
  if negb (str_truthy query) || negb (str_truthy (strip query)) then
    (Raise (ValueError "Query cannot be empty"), [])
  else
    match chunks with
    | [] =>
        (Return (Some
           {| answer := no_information;
              citations := [];
              chunk_count := 0;
              result_model := model self;
              metadata := <["error" := VStr "No chunks provided"]> ∅ |}), [])
    | _ :: _ =>
        let max_tokens := int_or max_tokens_arg (max_tokens self) in
        match _format_sources chunks with
        | Raise e => (Raise e, [])
        | Return sources_text =>
            let prompt := _construct_prompt query sources_text in
            let req := {| req_model := model self;
                          req_content := prompt;
                          req_temperature := temperature self;
                          req_max_tokens := max_tokens |} in
            let '(r, log) :=
              attempts (Z.to_nat (max_retries self)) 0 req chunks in
            (Return r, log)
        end
    end.

End Service.

End LLM.

(** ** Vector store: [app/services/vector_store.py] *)

Module VectorStore.

(** A vector as [upsert_chunks] sends it to the index. *)
Record vector : Type := {
  vec_id : string;
  vec_values : Embedding.embedding;
  vec_metadata : pydict
}.

(** A match as the index returns it. *)
Record index_match : Type := {
  match_id : string;
  match_score : Qc;
  match_metadata : pydict
}.

(** The arguments of [index.query]. *)
Record query_request : Type := {
  query_vector : option Embedding.embedding;
  query_top_k : Z;
  query_namespace : string;
  query_filter : option pydict;
  query_include_metadata : bool
}.

(** What [upsert_chunks] returns: the dictionary of the empty case, or the
    response of the index with its [upserted_count]. *)
Inductive upsert_return : Type :=
  | UpsertedNothing (d : pydict)
  | IndexResponse (upserted_count : Z).

Section Service.

(** [str(x)] inside an f-string. *)
Variable py_str : value -> string.

(** [hashlib.md5(s.encode()).hexdigest()] *)
Variable md5_hexdigest : string -> string.

(** [index.upsert]: the vectors and the namespace give either the text of
    the exception or the upserted count of the response. *)
Variable index_upsert : list vector -> string -> string + Z.

(** [index.query]: either the text of the exception or [results.matches]. *)
Variable index_query : query_request -> string + list index_match.

Definition dict_get (d : pydict) (k : string) (default : value) : value :=
  match d !! k with
  | Some v => v
  | None => default
  end.

(** [d[k]] on a dictionary. *)
Definition dict_item (d : pydict) (k : string) : py_result value :=
  match d !! k with
  | Some v => Return v
  | None => Raise (KeyError ("'" +:+ k +:+ "'"))
  end.

(** [generate_chunk_id]; [metadata.get] needs a dictionary. *)
Definition generate_chunk_id (text metadata : value) : py_result string :=
  match metadata with
  | VDict md =>
      let chunk_repr :=
        py_str text +:+ "_" +:+ py_str (dict_get md "source" (VStr ""))
        +:+ "_" +:+ py_str (dict_get md "position" (VInt 0)) in
      Return (md5_hexdigest chunk_repr)
  | _ => Raise (AttributeError "object has no attribute 'get'")
  end.

(** The body of the loop of [upsert_chunks]: the vector of one chunk. *)
Definition make_vector (chunk : pydict) (embedding : Embedding.embedding)
  : py_result vector :=
  text ← dict_item chunk "text";
  metadata ← dict_item chunk "metadata";
  chunk_id ← generate_chunk_id text metadata;
  match metadata with
  | VDict md =>
      source ← dict_item md "source";
      position ← dict_item md "position";
      token_count ← dict_item md "token_count";
      let m :=
        <["text" := text]>
        (<["source" := source]>
        (<["position" := position]>
        (<["token_count" := token_count]> ∅))) in
      let m :=
        if truthy (dict_get md "title" VNone)
        then <["title" := dict_get md "title" VNone]> m else m in
      let m :=
        if truthy (dict_get md "section" VNone)
        then <["section" := dict_get md "section" VNone]> m else m in
      Return {| vec_id := chunk_id; vec_values := embedding;
                vec_metadata := m |}
  | _ => Raise (AttributeError "object has no attribute 'get'")
  end.

(** The loop over [zip(chunks, embeddings)]. *)
Fixpoint make_vectors (chunks : list pydict)
    (embeddings : list Embedding.embedding) : py_result (list vector) :=
  match chunks, embeddings with
  | chunk :: chunks', embedding :: embeddings' =>
      v ← make_vector chunk embedding;
      vs ← make_vectors chunks' embeddings';
      Return (v :: vs)
  | _, _ => Return []
  end.

(** [upsert_chunks], with the log of the calls of [index.upsert]. *)
Definition upsert_chunks (chunks : list pydict)
    (embeddings : list Embedding.embedding) (namespace : string)
  : py_result upsert_return * list (list vector * string) :=
  if negb (length chunks =? length embeddings)%nat then
    (Raise (ValueError
       ("Number of chunks (" +:+ pretty (length chunks)
        +:+ ") must match number of embeddings ("
        +:+ pretty (length embeddings) +:+ ")")), [])
  else
    match chunks with
    | [] => (Return (UpsertedNothing {[ "upserted_count" := VInt 0 ]}), [])
    | _ :: _ =>
        match make_vectors chunks embeddings with
        | Raise e => (Raise e, [])
        | Return vectors =>
            match index_upsert vectors namespace with
            | inr n => (Return (IndexResponse n), [(vectors, namespace)])
            | inl e =>
                (Raise (Exception
                   ("Failed to upsert vectors to Pinecone: " +:+ e)),
                 [(vectors, namespace)])
            end
        end
    end.

(** [query_with_mmr]: the query of the index as it is, with the log of the
    calls of [index.query] (the parameter [lambda_param] is not used). *)
Definition query_with_mmr (query_embedding : option Embedding.embedding)
    (top_k : Z) (lambda_param : Qc) (namespace : string)
    (filter : option pydict) (include_metadata : bool)
  : py_result (list index_match) * list query_request :=
  let q := {| query_vector := query_embedding;
              query_top_k := top_k;
              query_namespace := namespace;
              query_filter := filter;
              query_include_metadata := include_metadata |} in
  match index_query q with
  | inr matches => (Return matches, [q])
  | inl e =>
      (Raise (Exception ("Failed to query Pinecone with MMR: " +:+ e)), [q])
  end.

End Service.

End VectorStore.

(** ** Retriever: [app/services/retrieval_service.py] *)

Module Retrieval.

Record RetrievalService : Type := {
  top_k : Z;
  lambda_param : Qc
}.

(** The returned dictionary, one field per key. *)
Record retrieve_result : Type := {
  chunks : list pydict;
  query_embedding : option Embedding.embedding;
  count : Z;
  metadata : pydict
}.

(** What [retrieve] raises: an exception of the services it calls or of
    its own check, or the [TypeError] of slicing a missing text in its log
    line. *)
Inductive retrieve_error : Type :=
  | Raised (e : exception)
  | TypeError (msg : string).

(** A call of a collaborator: the embeddings API, or the index. *)
Inductive call : Type :=
  | CEmbed (e : event Embedding.payload)
  | CQuery (q : VectorStore.query_request).

Section Service.

Variable embed_post
  : nat -> Embedding.payload -> string + list Embedding.embedding.
Variable embedding_service : Embedding.EmbeddingService.
Variable index_query
  : VectorStore.query_request -> string + list VectorStore.index_match.
Variable self : RetrievalService.

(** [d.get(k)], [None] when the key is missing. *)
Definition get_or_none (d : pydict) (k : string) : value :=
  match d !! k with
  | Some v => v
  | None => VNone
  end.

(** The chunk built from one match. *)
Definition chunk_of_match (m : VectorStore.index_match) : pydict :=
  <["id" := VStr (VectorStore.match_id m)]>
  (<["text" := VectorStore.dict_get (VectorStore.match_metadata m)
                 "text" (VStr "")]>
  (<["score" := VNum (VectorStore.match_score m)]>
  (<["metadata" :=
      VDict
        (<["source" := get_or_none (VectorStore.match_metadata m) "source"]>
        (<["title" := get_or_none (VectorStore.match_metadata m) "title"]>
        (<["position" :=
             get_or_none (VectorStore.match_metadata m) "position"]>
        (<["token_count" :=
             get_or_none (VectorStore.match_metadata m) "token_count"]>
         ∅))))]> ∅))).

(** The name of the type of a value, as error messages have it. *)
Definition type_name (v : value) : string :=
  match v with
  | VNone => "NoneType"
  | VBool _ => "bool"
  | VInt _ => "int"
  | VNum _ => "float"
  | VStr _ => "str"
  | VDict _ => "dict"
  end.

(** The message of the [TypeError] of [v[:60]] for a value that is not a
    string. (A dictionary, which the index does not store as the value of
    a metadata field, cannot be sliced either; its error is the one of
    Python up to 3.11, where a slice cannot be hashed.) *)
Definition slice_error (v : value) : string :=
  match v with
  | VDict _ => "unhashable type: 'slice'"
  | _ => "'" +:+ type_name v +:+ "' object is not subscriptable"
  end.

(** The loop over [results.matches]; the log line of a match slices
    [match.metadata.get('text')], which raises [TypeError] unless the text
    is there and is a string. *)
Fixpoint chunks_of_matches (matches : list VectorStore.index_match)
    (chunks : list pydict) : retrieve_error + list pydict :=
  match matches with
  | [] => inr chunks
  | m :: rest =>
      let chunks := chunks ++ [chunk_of_match m] in
      match get_or_none (VectorStore.match_metadata m) "text" with
      | VStr _ => chunks_of_matches rest chunks
      | v => inl (TypeError (slice_error v))
      end
  end.

Definition retrieve (query : string) (top_k_arg : option Z)
    (namespace : string) : (retrieve_error + retrieve_result) * list call :=
  if negb (str_truthy query) || negb (str_truthy (strip query)) then
    (inl (Raised (ValueError "Query cannot be empty")), [])
  else
    let top_k := int_or top_k_arg (top_k self) in
    match Embedding.generate_embedding embed_post embedding_service query with
    | (Raise e, log) => (inl (Raised e), CEmbed <$> log)
    | (Return query_embedding, log) =>
        match VectorStore.query_with_mmr index_query query_embedding top_k
                (lambda_param self) namespace None true with
        | (Raise e, qlog) =>
            (inl (Raised e), (CEmbed <$> log) ++ (CQuery <$> qlog))
        | (Return matches, qlog) =>
            (match chunks_of_matches matches [] with
             | inl e => inl e
             | inr chunks =>
                 inr {| chunks := chunks;
                        query_embedding := query_embedding;
                        count := Z.of_nat (length chunks);
                        metadata :=
                          <["lambda" := VNum (lambda_param self)]>
                          (<["top_k_requested" := VInt top_k]>
                          (<["top_k_retrieved" :=
                               VInt (Z.of_nat (length chunks))]> ∅)) |}
             end,
             (CEmbed <$> log) ++ (CQuery <$> qlog))
        end
    end.

End Service.

End Retrieval.

(** ** Vocabulary of the specification *)

(** A text that is empty or holds white space only. *)
Fixpoint all_space (s : string) : bool :=
  match s with
  | EmptyString => true
  | String c s' => py_isspace c && all_space s'
  end.

(** The sum of the elements of a list of integers. *)
Definition sumZ (l : list Z) : Z := foldr Z.add 0 l.

(** The index of the first occurrence of [x] in [l] ([length l] if none). *)
Fixpoint first_index (x : Z) (l : list Z) : nat :=
  match l with
  | [] => O
  | y :: l' => if decide (x = y) then O else S (first_index x l')
  end.

(** The positions of a list of chunks, in list order. *)
Definition positions (cs : list Chunker.TextChunk) : list Z :=
  (fun c => Chunker.position (Chunker.metadata c)) <$> cs.

(** The loop invariant of the positions: the next position is the number
    of chunks so far, and the chunks so far are numbered from 0. *)
Definition positions_ok (st : Chunker.loop_state) : Prop :=
  Chunker.next_position st = Z.of_nat (length (Chunker.chunks st))
  /\ positions (Chunker.chunks st)
     = Z.of_nat <$> seq 0 (length (Chunker.chunks st)).

(** A tokenizer with one token per word (a maximal run of characters that
    are not white space). *)
Fixpoint count_words (in_word : bool) (s : string) : nat :=
  match s with
  | EmptyString => O
  | String c s' =>
      if py_isspace c then count_words false s'
      else if in_word then count_words true s'
      else S (count_words true s')
  end.

Definition encode_words (s : string) : list nat :=
  repeat O (count_words false s).

(** A tokenizer with one token per character, the character code. *)
Fixpoint encode_chars (s : string) : list nat :=
  match s with
  | EmptyString => []
  | String c s' => nat_of_ascii c :: encode_chars s'
  end.

Definition small_chunker : Chunker.TextChunker :=
  {| Chunker.chunk_size := 5; Chunker.chunk_overlap := 2 |}.

(** The chunker of the ingest route. *)
Definition default_chunker : Chunker.TextChunker :=
  {| Chunker.chunk_size := 1000; Chunker.chunk_overlap := 120 |}.


(** A concrete reranker and two candidates, for the examples. *)
Definition example_reranker : Reranker.RerankerService :=
  {| Reranker.model := "jina-reranker-v2-base-multilingual";
     Reranker.top_k := 5;
     Reranker.max_retries := 3;
     Reranker.retry_delay := Q2Qc 1 |}.

Definition chunk_a : pydict :=
  <["id" := VStr "a"]> (<["text" := VStr "alpha"]> ∅).

Definition chunk_b : pydict :=
  <["id" := VStr "b"]> (<["text" := VStr "beta"]> ∅).

(** A rerank API that scores both candidates 1/2 and lists the second
    candidate first. *)
Definition rerank_tied : nat -> Reranker.payload -> string + list (Z * Qc) :=
  fun _ _ => inr [(1, Q2Qc (1 # 2)); (0, Q2Qc (1 # 2))].

(** A rerank API that is down. *)
Definition rerank_down : nat -> Reranker.payload -> string + list (Z * Qc) :=
  fun _ _ => inl "connection refused".

(** A concrete embedder; its API gives every text a vector of one number. *)
Definition example_embedder : Embedding.EmbeddingService :=
  {| Embedding.model := "jina-embeddings-v3";
     Embedding.max_retries := 3;
     Embedding.retry_delay := Q2Qc 1 |}.

Definition embed_ok
  : nat -> Embedding.payload -> string + list Embedding.embedding :=
  fun _ p => inr ((fun _ => [Q2Qc 0]) <$> Embedding.payload_input p).

(** A concrete synthesizer, for the examples. *)
Definition example_llm : LLM.LLMService :=
  {| LLM.model := "llama-3.3-70b-versatile";
     LLM.temperature := Q2Qc (3 # 10);
     LLM.max_tokens := 1024;
     LLM.max_retries := 3 |}.

Definition example_py_str (v : value) : string :=
  match v with
  | VStr s => s
  | VInt z => pretty z
  | VNone => "None"
  | VBool true => "True"
  | VBool false => "False"
  | _ => ""
  end.

(** A language model that is down. *)
Definition llm_down : nat -> LLM.request -> string + LLM.completion :=
  fun _ _ => inl "connection refused".

(** ** Vocabulary of the properties of the rest of the code *)

(** The parts of a list of chunks: for every chunk the sentences it takes
    over from the chunk before (its seed) and the sentences that are new
    in it (its body). [seeds_from prev parts] says that every seed is a
    suffix of the sentences of the chunk before ([prev] for the first). *)
Fixpoint seeds_from (prev : list string)
    (parts : list (list string * list string)) : Prop :=
  match parts with
  | [] => True
  | (seed, body) :: rest =>
      seed `suffix_of` prev /\ seeds_from (seed ++ body) rest
  end.

(** The sentences of the last of the parts ([prev] if there is none). *)
Fixpoint last_sentences (prev : list string)
    (parts : list (list string * list string)) : list string :=
  match parts with
  | [] => prev
  | (seed, body) :: rest => last_sentences (seed ++ body) rest
  end.

(** A text without its white space. *)
Fixpoint remove_spaces (s : string) : string :=
  match s with
  | EmptyString => EmptyString
  | String c s' =>
      if py_isspace c then remove_spaces s' else String c (remove_spaces s')
  end.

(** The texts of a list, one after the other. *)
Fixpoint concat_strings (l : list string) : string :=
  match l with
  | [] => EmptyString
  | s :: l' => s +:+ concat_strings l'
  end.


(** The metadata stored with the vector of a chunk of the chunker: the
    title and the section are there only when they are set and not
    empty. *)
Definition stored_metadata (c : Chunker.TextChunk) : pydict :=
  let m :=
    <["text" := VStr (Chunker.text c)]>
    (<["source" := VStr (Chunker.source (Chunker.metadata c))]>
    (<["position" := VInt (Chunker.position (Chunker.metadata c))]>
    (<["token_count" := VInt (Chunker.token_count (Chunker.metadata c))]>
       ∅))) in
  let m :=
    match Chunker.title (Chunker.metadata c) with
    | Some (String a t) => <["title" := VStr (String a t)]> m
    | _ => m
    end in
  match Chunker.section (Chunker.metadata c) with
  | Some (String a t) => <["section" := VStr (String a t)]> m
  | _ => m
  end.

(** A text made of decimal digits only. *)
Fixpoint all_digits (s : string) : bool :=
  match s with
  | EmptyString => true
  | String c s' => py_isdigit c && all_digits s'
  end.

(** Concrete collaborators, for the examples. *)



(** A stand-in for the hash of the chunk ids. *)
Definition example_hash (s : string) : string := s.

(** An index that stores what it is given. *)
Definition index_upsert_ok
  : list VectorStore.vector -> string -> string + Z :=
  fun vectors _ => inr (Z.of_nat (length vectors)).

Definition match_a : VectorStore.index_match :=
  {| VectorStore.match_id := "a";
     VectorStore.match_score := Q2Qc (9 # 10);
     VectorStore.match_metadata :=
       <["text" := VStr "alpha"]> (<["position" := VInt 0]> ∅) |}.

(** A match stored without its text. *)
Definition match_no_text : VectorStore.index_match :=
  {| VectorStore.match_id := "b";
     VectorStore.match_score := Q2Qc (1 # 2);
     VectorStore.match_metadata := <["position" := VInt 1]> ∅ |}.

Definition index_query_a
  : VectorStore.query_request -> string + list VectorStore.index_match :=
  fun _ => inr [match_a].

Definition index_query_no_text
  : VectorStore.query_request -> string + list VectorStore.index_match :=
  fun _ => inr [match_a; match_no_text].

Definition example_retriever : Retrieval.RetrievalService :=
  {| Retrieval.top_k := 20; Retrieval.lambda_param := Q2Qc (1 # 2) |}.


(** A language model that answers with two markers. *)
Definition llm_answers : nat -> LLM.request -> string + LLM.completion :=
  fun _ _ =>
    inr {| LLM.content := " Beta builds on alpha [2][1]. ";
           LLM.usage := Some 9 |}.

(** The sources of the two example candidates, as the prompt has them. *)
Definition example_sources_text : string :=
  match LLM._format_sources example_py_str [chunk_a; chunk_b] with
  | Return s => s
  | Raise _ => ""
  end.

(** Services configured with no attempt at all. *)
Definition llm_no_attempt : LLM.LLMService :=
  {| LLM.model := "llama-3.3-70b-versatile";
     LLM.temperature := Q2Qc (3 # 10);
     LLM.max_tokens := 1024;
     LLM.max_retries := 0 |}.

Definition reranker_no_attempt : Reranker.RerankerService :=
  {| Reranker.model := "jina-reranker-v2-base-multilingual";
     Reranker.top_k := 5;
     Reranker.max_retries := 0;
     Reranker.retry_delay := Q2Qc 1 |}.

Definition embedder_no_attempt : Embedding.EmbeddingService :=
  {| Embedding.model := "jina-embeddings-v3";
     Embedding.max_retries := 0;
     Embedding.retry_delay := Q2Qc 1 |}.

(** * Properties *)

(** ** Strings *)

Lemma rstrip_empty_iff (s : string) :
  rstrip s = EmptyString <-> all_space s = true.
Proof.
  induction s as [|c s IH]; simpl; [done|].
  destruct (py_isspace c); simpl.
  - destruct (rstrip s) eqn:Hr; simpl.
    + split; [intros _; by apply IH | done].
    + split; [done|]. intros Hs. apply IH in Hs. done.
  - split; done.
Qed.

Lemma all_space_lstrip (s : string) : all_space (lstrip s) = all_space s.
Proof.
  induction s as [|c s IH]; simpl; [done|].
  destruct (py_isspace c) eqn:Hc; simpl; [done|]. by rewrite Hc.
Qed.

Lemma strip_empty_iff (s : string) :
  strip s = EmptyString <-> all_space s = true.
Proof. unfold strip. by rewrite rstrip_empty_iff, all_space_lstrip. Qed.

Lemma str_truthy_false (s : string) :
  str_truthy s = false <-> s = EmptyString.
Proof. destruct s; simpl; split; done. Qed.

(** The test [not s or not s.strip()] of the services is the test for an
    empty or white-space-only text. *)
Lemma blank_test (s : string) :
  negb (str_truthy s) || negb (str_truthy (strip s)) = all_space s.
Proof.
  destruct (all_space s) eqn:Hs.
  - apply strip_empty_iff in Hs. rewrite Hs. simpl. apply orb_true_r.
  - destruct s as [|c s]; [done|]. simpl negb at 1. simpl orb.
    destruct (strip (String c s)) eqn:Hst; [|done].
    apply strip_empty_iff in Hst. congruence.
Qed.

(** ** Sentence splitting *)

Lemma span_space_length (s : string) :
  (String.length (Chunker.span_space s).1
   + String.length (Chunker.span_space s).2 = String.length s)%nat.
Proof.
  induction s as [|c s IH]; simpl; [done|].
  destruct (py_isspace c); [|done].
  destruct (Chunker.span_space s) as [ws rest]. simpl in *. lia.
Qed.

Lemma match_boundary_length (prev : option ascii) (s : string)
    (w : ascii) (ws rest : string) :
  Chunker.match_boundary prev s = Some (String w ws, rest) ->
  (String.length rest < String.length s)%nat.
Proof.
  unfold Chunker.match_boundary. intros H.
  destruct prev as [p|]; [|done].
  destruct (Chunker.is_terminal p); [|done].
  pose proof (span_space_length s) as Hl.
  destruct (Chunker.span_space s) as [[|w' ws'] [|u rest']]; simpl in Hl.
  - destruct s as [|c s']; [done|].
    destruct c as [[] [] [] [] [] [] [] []]; destruct s'; done.
  - destruct s as [|c s']; [done|].
    destruct c as [[] [] [] [] [] [] [] []]; destruct s'; done.
  - destruct s as [|c s']; [done|].
    destruct c as [[] [] [] [] [] [] [] []]; destruct s'; done.
  - destruct (py_isupper_AZ u); [|done].
    inversion H; subst. simpl. lia.
Qed.

(** More fuel than the length of the text changes nothing: the scan of
    [re_split] never stops for lack of fuel. *)
Lemma split_fuel_enough (n m : nat) :
  forall (prev : option ascii) (s piece : string),
    (String.length s < n)%nat -> (String.length s < m)%nat ->
    Chunker.split_fuel n prev s piece = Chunker.split_fuel m prev s piece.
Proof.
  revert m. induction n as [|n IH]; intros m prev s piece Hn Hm; [lia|].
  destruct m as [|m]; [lia|]. simpl.
  destruct (Chunker.match_boundary prev s) as [[[|w ws] rest]|] eqn:Hmb.
  - destruct s as [|c s]; [done|]. simpl in *. f_equal. apply IH; lia.
  - apply match_boundary_length in Hmb. f_equal. apply IH; lia.
  - destruct s as [|c s]; [done|]. simpl in *. apply IH; lia.
Qed.

(** ** Answer synthesizer *)

Section LLMProperties.

Variable py_str : value -> string.
Variable create : nat -> LLM.request -> string + LLM.completion.
Variable self : LLM.LLMService.

(** C9. A query that is empty or white space only makes [generate_answer]
    raise [ValueError] whatever the chunk list is, the empty one included:
    the check of the query comes first, no request is sent, and the fixed
    "no information" answer is not returned. *)
Theorem generate_answer_blank_query_raises
    (query : string) (chunks : list pydict) (max_tokens : option Z) :
  all_space query = true ->
  LLM.generate_answer py_str create self query chunks max_tokens
    = (Raise (ValueError "Query cannot be empty"), [])
  /\ LLM.generate_answer py_str create self query [] max_tokens
    = (Raise (ValueError "Query cannot be empty"), [])
  /\ (forall r log,
        LLM.generate_answer py_str create self query chunks max_tokens
          = (Return (Some r), log) ->
        LLM.answer r <> LLM.no_information).
Proof.
  intros Hq. unfold LLM.generate_answer. rewrite blank_test, Hq.
  split_and!; [done|done|]. intros r log H. discriminate H.
Qed.

(** C8. With a query that passes the check of the query (it has a
    character that is not white space) and an empty chunk list,
    [generate_answer] returns the fixed "no information" answer and no
    citation, and the log of requests to the language model is empty. *)
Theorem generate_answer_no_chunks (query : string) (max_tokens : option Z) :
  all_space query = false ->
  exists r,
    LLM.generate_answer py_str create self query [] max_tokens
      = (Return (Some r), [])
    /\ LLM.answer r
       = "No relevant information found in the provided sources."
    /\ LLM.citations r = []
    /\ LLM.chunk_count r = 0.
Proof.
  intros Hq. unfold LLM.generate_answer. rewrite blank_test, Hq.
  eexists. split; [reflexivity|]. done.
Qed.

End LLMProperties.

Lemma generate_answer_blank_query_raises_witness :
  all_space "   " = true
  /\ LLM.generate_answer example_py_str llm_down example_llm "   " [] None
     = (Raise (ValueError "Query cannot be empty"), []).
Proof.
  split; [reflexivity|].
  apply (generate_answer_blank_query_raises
           example_py_str llm_down example_llm "   " [] None).
  reflexivity.
Defined.

Lemma generate_answer_no_chunks_witness :
  all_space "What is attention?" = false
  /\ exists r,
       LLM.generate_answer example_py_str llm_down example_llm
         "What is attention?" [] None = (Return (Some r), [])
       /\ LLM.answer r
          = "No relevant information found in the provided sources."
       /\ LLM.citations r = []
       /\ LLM.chunk_count r = 0.
Proof.
  split; [reflexivity|].
  apply (generate_answer_no_chunks
           example_py_str llm_down example_llm "What is attention?" None).
  reflexivity.
Defined.

(** *** Citation extraction *)

Section CitationProperties.

Import LLM.

Lemma span_digits_length (s : string) :
  (String.length (span_digits s).2 <= String.length s)%nat.
Proof.
  induction s as [|c s IH]; simpl; [done|].
  destruct (py_isdigit c); [|simpl; lia].
  destruct (span_digits s) as [ds rest]. simpl in *. lia.
Qed.

Lemma match_citation_length (s group rest : string) :
  match_citation s = Some (group, rest) ->
  (String.length rest < String.length s)%nat.
Proof.
  unfold match_citation. intros H.
  destruct s as [|c s]; [done|].
  destruct (Ascii.eqb_spec c "["%char) as [->|Hc]; cycle 1.
  { destruct c as [[] [] [] [] [] [] [] []]; done. }
  pose proof (span_digits_length s) as Hl.
  destruct (span_digits s) as [ds r]. simpl in Hl.
  destruct ds as [|d ds]; [done|].
  destruct r as [|c' r]; [done|].
  destruct (Ascii.eqb_spec c' "]"%char) as [->|Hc'].
  - inversion H; subst. simpl in *. lia.
  - destruct c' as [[] [] [] [] [] [] [] []]; done.
Qed.

(** More fuel than the length of the text changes nothing: the scan of
    [findall_citations] never stops for lack of fuel. *)
Lemma findall_fuel_enough (n m : nat) (s : string) :
  (String.length s <= n)%nat -> (String.length s <= m)%nat ->
  findall_fuel n s = findall_fuel m s.
Proof.
  revert m s. induction n as [|n IH]; intros m s Hn Hm.
  - destruct s; [|simpl in Hn; lia]. by destruct m.
  - destruct m as [|m].
    + destruct s; [done | simpl in Hm; lia].
    + simpl. destruct (match_citation s) as [[g rest]|] eqn:Hmc.
      * apply match_citation_length in Hmc. f_equal. apply IH; lia.
      * destruct s as [|c s]; [done|]. simpl in *. apply IH; lia.
Qed.

Lemma StronglySorted_impl_elem {A} (R R' : A -> A -> Prop) (l : list A) :
  (forall a b, a ∈ l -> b ∈ l -> R a b -> R' a b) ->
  StronglySorted R l -> StronglySorted R' l.
Proof.
  intros HR Hs. induction Hs as [|a l Hs IH Hall]; [constructor|].
  constructor.
  - apply IH. intros x y Hx Hy. apply HR; apply elem_of_cons; by right.
  - rewrite list.Forall_forall in *. intros x Hx.
    apply HR; [apply elem_of_cons; by left | apply elem_of_cons; by right
              | by apply Hall].
Qed.

Lemma StronglySorted_filter_keep {A} (R : A -> A -> Prop) (P : A -> Prop)
    `{!forall x, Decision (P x)} (l : list A) :
  StronglySorted R l -> StronglySorted R (filter P l).
Proof.
  induction 1 as [|a l Hs IH Hall]; [constructor|].
  rewrite filter_cons. destruct (decide (P a)); [|done].
  constructor; [done|].
  rewrite list.Forall_forall in *. intros x Hx.
  apply Hall. by apply list_elem_of_filter in Hx as [_ ?].
Qed.

(** The first loop of [_extract_citations], for any state it is entered
    with: it adds to [cited_indices] the numbers not yet seen, once each and
    in the order of their first appearance. *)
Lemma cited_loop_spec (strs : list string) :
  forall (cited : list Z) (seen : gset Z),
    (forall z, z ∈ seen <-> z ∈ cited) ->
    NoDup cited ->
    exists tail,
      cited_loop strs cited seen = cited ++ tail
      /\ NoDup (cited ++ tail)
      /\ (forall z, z ∈ tail <-> z ∈ (py_int <$> strs) /\ z ∉ cited)
      /\ StronglySorted
           (fun a b => (first_index a (py_int <$> strs)
                        < first_index b (py_int <$> strs))%nat) tail.
Proof.
  induction strs as [|str strs IH]; intros cited seen Hseen Hnd.
  - exists []. simpl. rewrite app_nil_r. split_and!; try done.
    + intros z. split; [by intros ?%elem_of_nil | by intros [?%elem_of_nil _]].
    + constructor.
  - rewrite fmap_cons. simpl.
    destruct (decide (py_int str ∈ seen)) as [Hin|Hnin].
    + destruct (IH cited seen Hseen Hnd) as (tail & -> & Hnd' & Hmem & Hsort).
      apply Hseen in Hin.
      exists tail. split_and!; try done.
      * intros z. rewrite Hmem, elem_of_cons. split.
        -- intros [Hz Hnc]. split; [by right | done].
        -- intros [[->|Hz] Hnc]; done.
      * eapply StronglySorted_impl_elem; [|exact Hsort].
        intros a b Ha Hb Hlt.
        apply Hmem in Ha as [_ Ha]. apply Hmem in Hb as [_ Hb].
        rewrite (decide_False (P := a = py_int str)) by (by intros ->).
        rewrite (decide_False (P := b = py_int str)) by (by intros ->).
        cbv beta in *. lia.
    + assert (Hnc : py_int str ∉ cited) by (by rewrite <- Hseen).
      destruct (IH (cited ++ [py_int str]) (seen ∪ {[py_int str]}))
        as (tail & Heq & Hnd' & Hmem & Hsort).
      { intros z. rewrite elem_of_union, elem_of_singleton, elem_of_app,
          list_elem_of_singleton, Hseen. done. }
      { apply list.NoDup_app. split_and!; [done| |apply NoDup_singleton].
        intros z Hz ->%list_elem_of_singleton. done. }
      assert (Hne : forall z, z ∈ tail -> z <> py_int str).
      { intros z Hz ->. apply Hmem in Hz as [_ Hz]. apply Hz.
        apply elem_of_app. right. by apply list_elem_of_singleton. }
      exists (py_int str :: tail). rewrite Heq, <- app_assoc. simpl.
      split_and!; try done.
      * by rewrite <- app_assoc in Hnd'.
      * intros z. rewrite !elem_of_cons, Hmem, elem_of_app,
          list_elem_of_singleton.
        destruct (decide (z = py_int str)) as [->|Hz]; [|tauto].
        split; [intros _; split; [by left | done] | intros _; by left].
      * constructor.
        -- eapply StronglySorted_impl_elem; [|exact Hsort].
           intros a b Ha Hb Hlt.
           rewrite (decide_False (P := a = py_int str)) by (by apply Hne).
           rewrite (decide_False (P := b = py_int str)) by (by apply Hne).
           cbv beta in *. lia.
        -- apply list.Forall_forall. intros z Hz.
           rewrite (decide_True (P := py_int str = py_int str)) by done.
           rewrite (decide_False (P := z = py_int str)) by (by apply Hne).
           cbv beta. lia.
Qed.

(** The second loop of [_extract_citations]: the numbers in range, in the
    order of [cited_indices], each bound to a copy of its chunk. *)
Lemma map_loop_spec (chunks : list pydict) (cited : list Z) :
  forall acc : list pydict,
    exists out,
      map_loop chunks cited acc = acc ++ out
      /\ Forall2
           (fun n c => exists chunk,
              chunks !! Z.to_nat (n - 1) = Some chunk
              /\ c = <["citation_number" := VInt n]> chunk)
           (filter (fun n => 1 <= n <= Z.of_nat (length chunks)) cited) out.
Proof.
  induction cited as [|n cited IH]; intros acc.
  - exists []. by rewrite app_nil_r.
  - simpl. rewrite filter_cons.
    destruct (decide (1 <= n <= Z.of_nat (length chunks))) as [Hin|Hout].
    + assert ((0 <=? n - 1) && (n - 1 <? Z.of_nat (length chunks)) = true)
        as -> by lia.
      destruct (chunks !! Z.to_nat (n - 1)) as [chunk|] eqn:Hc; cycle 1.
      { apply lookup_ge_None in Hc. lia. }
      destruct (IH (acc ++ [<["citation_number" := VInt n]> chunk]))
        as (out & -> & Hout).
      exists (<["citation_number" := VInt n]> chunk :: out).
      rewrite <- app_assoc. split; [done|].
      constructor; [by exists chunk | done].
    + assert ((0 <=? n - 1) && (n - 1 <? Z.of_nat (length chunks)) = false)
        as -> by lia.
      apply IH.
Qed.

(** C1. [_extract_citations] returns one citation per distinct marker
    number [n] of the answer with [1 <= n <= length chunks]; the citation is
    the chunk [chunks[n-1]] with [citation_number] set to [n]; the
    citations come in the order of the first appearance of their numbers in
    the answer, and numbers out of range leave no citation. For the markers
    2, 1, 2, 5 over four chunks the citations are those numbered 2 and 1,
    bound to the second and to the first chunk. *)
Theorem extract_citations_first_appearance
    (answer_text : string) (chunks : list pydict) :
  exists ns : list Z,
    Forall2
      (fun n c => exists chunk,
         chunks !! Z.to_nat (n - 1) = Some chunk
         /\ c = <["citation_number" := VInt n]> chunk)
      ns (_extract_citations answer_text chunks)
    /\ NoDup ns
    /\ (forall n,
          n ∈ ns <->
          n ∈ (py_int <$> findall_citations answer_text)
          /\ 1 <= n <= Z.of_nat (length chunks))
    /\ StronglySorted
         (fun a b =>
            (first_index a (py_int <$> findall_citations answer_text)
             < first_index b (py_int <$> findall_citations answer_text))%nat)
         ns
    /\ (forall c1 c2 c3 c4,
          chunks = [c1; c2; c3; c4] ->
          findall_citations answer_text = ["2"; "1"; "2"; "5"]%string ->
          _extract_citations answer_text chunks
            = [<["citation_number" := VInt 2]> c2;
               <["citation_number" := VInt 1]> c1]).
Proof.
  unfold _extract_citations.
  destruct (cited_loop_spec (findall_citations answer_text) [] ∅)
    as (cited & Hcited & Hnd & Hmem & Hsort).
  { intros z. split; [by intros ?%not_elem_of_empty | by intros ?%elem_of_nil]. }
  { constructor. }
  simpl in Hcited, Hnd.
  destruct (map_loop_spec chunks cited []) as (out & Hout & Hall).
  simpl in Hout.
  exists (filter (fun n => 1 <= n <= Z.of_nat (length chunks)) cited).
  split_and!.
  - by rewrite Hcited, Hout.
  - by apply list.NoDup_filter.
  - intros n. rewrite list_elem_of_filter, Hmem.
    split.
    + intros [Hr [Hn _]]. done.
    + intros [Hn Hr]. split; [done|]. split; [done|]. by intros ?%elem_of_nil.
  - by apply StronglySorted_filter_keep.
  - intros c1 c2 c3 c4 -> Hfind. rewrite Hfind.
    assert (cited_loop ["2"; "1"; "2"; "5"]%string [] ∅ = [2; 1; 5]) as ->
      by (vm_compute; reflexivity).
    reflexivity.
Qed.

End CitationProperties.

Lemma extract_citations_first_appearance_witness :
  LLM.findall_citations
    "Attention replaces recurrence [2]. It builds on [1], see [2] and [5]."
    = ["2"; "1"; "2"; "5"]%string
  /\ LLM._extract_citations
       "Attention replaces recurrence [2]. It builds on [1], see [2] and [5]."
       [{[ "id" := VStr "a" ]}; {[ "id" := VStr "b" ]};
        {[ "id" := VStr "c" ]}; {[ "id" := VStr "d" ]}]
     = [<["citation_number" := VInt 2]> {[ "id" := VStr "b" ]};
        <["citation_number" := VInt 1]> {[ "id" := VStr "a" ]}].
Proof.
  split; [reflexivity|].
  destruct (extract_citations_first_appearance
    "Attention replaces recurrence [2]. It builds on [1], see [2] and [5]."
    [{[ "id" := VStr "a" ]}; {[ "id" := VStr "b" ]};
     {[ "id" := VStr "c" ]}; {[ "id" := VStr "d" ]}])
    as (_ & _ & _ & _ & _ & Hex).
  apply (Hex _ _ {[ "id" := VStr "c" ]} {[ "id" := VStr "d" ]});
    reflexivity.
Defined.

(** ** Chunker *)

Section ChunkerProperties.

Import Chunker.

Variable encode : string -> list nat.
Variable self : TextChunker.
Variable source : string.
Variable title section : option string.

Local Abbreviation count := (count_tokens encode).
Local Abbreviation step1 := (step encode self source title section).
Local Abbreviation run := (run_loop encode self source title section).
Local Abbreviation chunk_of := (mk_chunk source title section).

Lemma count_tokens_nonneg (s : string) : 0 <= count s.
Proof. unfold count_tokens. lia. Qed.

Lemma sumZ_app (l1 l2 : list Z) : sumZ (l1 ++ l2) = sumZ l1 + sumZ l2.
Proof. unfold sumZ. induction l1 as [|x l1 IH]; simpl; lia. Qed.

Lemma sum_counts_nonneg (ss : list string) : 0 <= sumZ (count <$> ss).
Proof.
  induction ss as [|s ss IH]; [done|].
  rewrite fmap_cons. pose proof (count_tokens_nonneg s).
  unfold sumZ in *. simpl. lia.
Qed.

Lemma run_snoc (pre : list string) (s : string) (st : loop_state) :
  run (pre ++ [s]) st = step1 (run pre st) s.
Proof. unfold run_loop. by rewrite fold_left_app. Qed.

(** A property of the loop state that holds at the start and that every
    iteration keeps, holds when the loop ends. *)
Lemma run_invariant (P : loop_state -> Prop) (sentences : list string) :
  (forall st s, s ∈ sentences -> P st -> P (step1 st s)) ->
  forall st, P st -> P (run sentences st).
Proof.
  unfold run_loop. induction sentences as [|s ss IH]; intros Hstep st Hst.
  - done.
  - simpl. apply IH.
    + intros st' s' Hs'. apply Hstep. by right.
    + apply Hstep; [by left | done].
Qed.

(** The four paths of one iteration. *)
Lemma step_cases (st : loop_state) (s : string) :
  (chunk_size self < count s
   /\ current_chunk_sentences st <> []
   /\ step1 st s =
      {| chunks := (chunks st ++
           [chunk_of (join " " (current_chunk_sentences st))
              (next_position st) (current_token_count st)]) ++
           [chunk_of s (next_position st + 1) (count s)];
         current_chunk_sentences := [];
         current_token_count := 0;
         next_position := next_position st + 1 + 1 |})
  \/ (chunk_size self < count s
      /\ current_chunk_sentences st = []
      /\ step1 st s =
         {| chunks := chunks st ++ [chunk_of s (next_position st) (count s)];
            current_chunk_sentences := [];
            current_token_count := current_token_count st;
            next_position := next_position st + 1 |})
  \/ (count s <= chunk_size self
      /\ chunk_size self < current_token_count st + count s
      /\ current_chunk_sentences st <> []
      /\ step1 st s =
         {| chunks := chunks st ++
              [chunk_of (join " " (current_chunk_sentences st))
                 (next_position st) (current_token_count st)];
            current_chunk_sentences :=
              (overlap_seed encode self (current_chunk_sentences st)).1 ++ [s];
            current_token_count :=
              (overlap_seed encode self (current_chunk_sentences st)).2
              + count s;
            next_position := next_position st + 1 |})
  \/ (count s <= chunk_size self
      /\ (current_token_count st + count s <= chunk_size self
          \/ current_chunk_sentences st = [])
      /\ step1 st s =
         {| chunks := chunks st;
            current_chunk_sentences := current_chunk_sentences st ++ [s];
            current_token_count := current_token_count st + count s;
            next_position := next_position st |}).
Proof.
  unfold step.
  destruct (chunk_size self <? count s) eqn:Hbig.
  - apply Z.ltb_lt in Hbig.
    destruct (current_chunk_sentences st) as [|s0 ss] eqn:Hcur; simpl.
    + right; left. split_and!; try done. by rewrite Hcur.
    + left. split_and!; done.
  - apply Z.ltb_ge in Hbig. right; right.
    destruct (chunk_size self <? current_token_count st + count s) eqn:Hpot.
    + apply Z.ltb_lt in Hpot.
      destruct (current_chunk_sentences st) as [|s0 ss] eqn:Hcur; simpl.
      * right. split_and!; try done; [by right | by rewrite Hcur].
      * left. split_and!; try done.
        by destruct (overlap_seed encode self (s0 :: ss)).
    + apply Z.ltb_ge in Hpot. right. simpl. split_and!; try done. by left.
Qed.

Lemma sumZ_reverse (l : list Z) : sumZ (reverse l) = sumZ l.
Proof.
  induction l as [|x l IH]; [done|].
  rewrite reverse_cons, sumZ_app, IH. unfold sumZ. simpl. lia.
Qed.

(** The inner loop takes sentences from the (reversed) list while the
    running total stays within [chunk_overlap], and stops at the first one
    that does not fit. *)
Lemma overlap_loop_spec (reversed_sentences : list string) :
  forall (acc : list string) (tok : Z),
    exists taken rest,
      reversed_sentences = taken ++ rest
      /\ overlap_loop encode self reversed_sentences acc tok
         = (reverse taken ++ acc, tok + sumZ (count <$> taken))
      /\ (taken = [] \/ tok + sumZ (count <$> taken) <= chunk_overlap self)
      /\ (rest = []
          \/ exists s rest',
               rest = s :: rest'
               /\ chunk_overlap self < tok + sumZ (count <$> taken) + count s).
Proof.
  induction reversed_sentences as [|s rs IH]; intros acc tok.
  - exists [], []. simpl. split_and!; try done; [|by left|by left].
    f_equal. unfold sumZ. simpl. lia.
  - simpl. destruct (tok + count s <=? chunk_overlap self) eqn:Hfit.
    + apply Z.leb_le in Hfit.
      destruct (IH (s :: acc) (tok + count s))
        as (taken & rest & -> & -> & Hle & Hstop).
      exists (s :: taken), rest. rewrite fmap_cons.
      assert (sumZ (count s :: (count <$> taken))
              = count s + sumZ (count <$> taken)) as -> by done.
      split_and!; [done| |right|].
      * rewrite reverse_cons, <- app_assoc. simpl. f_equal. lia.
      * destruct Hle as [->|Hle]; [|lia]. unfold sumZ. simpl. lia.
      * destruct Hstop as [->|(s' & rest' & -> & Hgt)]; [by left|].
        right. exists s', rest'. split; [done|lia].
    + apply Z.leb_gt in Hfit.
      exists [], (s :: rs). simpl. split_and!; try done.
      * f_equal. unfold sumZ. simpl. lia.
      * by left.
      * right. exists s, rs. split; [done|]. unfold sumZ. simpl. lia.
Qed.

(** The overlap seed of a closed chunk: a suffix of its sentences, with its
    token count; it fits the overlap budget, and the sentence before it, if
    any, would not have fitted. *)
Lemma overlap_seed_spec (current : list string) :
  exists dropped seed,
    current = dropped ++ seed
    /\ overlap_seed encode self current = (seed, sumZ (count <$> seed))
    /\ (seed = [] \/ sumZ (count <$> seed) <= chunk_overlap self)
    /\ (dropped = []
        \/ exists d s,
             dropped = d ++ [s]
             /\ chunk_overlap self < count s + sumZ (count <$> seed)).
Proof.
  unfold overlap_seed.
  destruct (overlap_loop_spec (reverse current) [] 0)
    as (taken & rest & Hrev & -> & Hle & Hstop).
  exists (reverse rest), (reverse taken).
  rewrite app_nil_r, fmap_reverse, sumZ_reverse, Z.add_0_l.
  split_and!.
  - rewrite <- reverse_app, <- Hrev. by rewrite reverse_involutive.
  - done.
  - destruct Hle as [->|Hle]; [by left | right; lia].
  - destruct Hstop as [->|(s & rest' & -> & Hgt)]; [by left|].
    right. exists (reverse rest'), s. rewrite reverse_cons. split; [done|lia].
Qed.

Lemma chunk_text_nonblank (text : string) :
  all_space text = false ->
  chunk_text encode self text source title section
    = final_chunks source title section (run (sentences_of text) initial_state).
Proof.
  intros Hns. unfold chunk_text.
  destruct (strip text) eqn:Hs; [|done].
  apply strip_empty_iff in Hs. congruence.
Qed.

Lemma snoc_not_nil {A} (l : list A) (x : A) : l ++ [x] <> [].
Proof. by destruct l. Qed.

Lemma nonempty_snoc {A} (l : list A) (x : A) : nonempty (l ++ [x]) = true.
Proof. by destruct l. Qed.

Lemma sentences_of_nonempty (text : string) : sentences_of text <> [].
Proof.
  unfold sentences_of. by destruct (split_into_sentences text).
Qed.

(** *** Positions *)

Lemma positions_snoc (cs : list TextChunk) (t : string) (k : Z) :
  positions cs = Z.of_nat <$> seq 0 (length cs) ->
  positions (cs ++ [chunk_of t (Z.of_nat (length cs)) k])
    = Z.of_nat <$> seq 0 (length (cs ++ [chunk_of t (Z.of_nat (length cs)) k])).
Proof.
  intros H. unfold positions in *.
  rewrite length_app, fmap_app, H. simpl length.
  rewrite Nat.add_1_r, seq_S, fmap_app. done.
Qed.

Lemma step_positions_ok (st : loop_state) (s : string) :
  positions_ok st -> positions_ok (step1 st s).
Proof.
  intros [Hnext Hpos]. unfold positions_ok.
  destruct (step_cases st s)
    as [(_ & _ & ->)|[(_ & _ & ->)|[(_ & _ & _ & ->)|(_ & _ & ->)]]];
    simpl; rewrite ?Hnext.
  - split; [rewrite !length_app; simpl; lia|].
    pose proof (positions_snoc _ (join " " (current_chunk_sentences st))
                  (current_token_count st) Hpos) as H1.
    pose proof (positions_snoc _ s (count s) H1) as H2.
    assert (Z.of_nat (length (chunks st ++
              [chunk_of (join " " (current_chunk_sentences st))
                 (Z.of_nat (length (chunks st))) (current_token_count st)]))
            = Z.of_nat (length (chunks st)) + 1) as Heq
      by (rewrite length_app; simpl; lia).
    by rewrite Heq in H2.
  - split; [rewrite length_app; simpl; lia|]. by apply positions_snoc.
  - split; [rewrite length_app; simpl; lia|]. by apply positions_snoc.
  - done.
Qed.

(** Every iteration only appends to the list of chunks. *)
Lemma step_chunks_prefix (st : loop_state) (s : string) :
  exists new, chunks (step1 st s) = chunks st ++ new.
Proof.
  destruct (step_cases st s)
    as [(_ & _ & ->)|[(_ & _ & ->)|[(_ & _ & _ & ->)|(_ & _ & ->)]]]; simpl.
  - rewrite <- app_assoc. by eexists.
  - by eexists.
  - by eexists.
  - exists []. by rewrite app_nil_r.
Qed.

Lemma run_chunks_prefix (sentences : list string) :
  forall st, exists new, chunks (run sentences st) = chunks st ++ new.
Proof.
  unfold run_loop. induction sentences as [|s ss IH]; intros st; simpl.
  - exists []. by rewrite app_nil_r.
  - destruct (IH (step1 st s)) as [new2 ->].
    destruct (step_chunks_prefix st s) as [new1 ->].
    exists (new1 ++ new2). by rewrite app_assoc.
Qed.

Lemma final_chunks_prefix (st : loop_state) :
  exists new, final_chunks source title section st = chunks st ++ new.
Proof.
  unfold final_chunks. destruct (current_chunk_sentences st); simpl.
  - exists []. by rewrite app_nil_r.
  - by eexists.
Qed.

(** C6. For a text that is not empty and not white space only, the
    positions of the chunks of [chunk_text] are 0, 1, ..., n-1 in the order
    of the list, and there is at least one chunk; a chunk, with its
    position, is appended once and stays as it is: the list of chunks after
    any number of sentences is a prefix of the result. *)
Theorem chunk_positions_contiguous (text : string) :
  all_space text = false ->
  positions (chunk_text encode self text source title section)
    = Z.of_nat <$>
        seq 0 (length (chunk_text encode self text source title section))
  /\ chunk_text encode self text source title section <> []
  /\ (forall pre suf,
        sentences_of text = pre ++ suf ->
        exists later,
          chunk_text encode self text source title section
            = chunks (run pre initial_state) ++ later).
Proof.
  intros Hns. rewrite (chunk_text_nonblank text Hns). split_and!.
  - assert (positions_ok (run (sentences_of text) initial_state))
      as [Hnext Hpos].
    { apply run_invariant; [|done].
      intros st s _. apply step_positions_ok. }
    unfold final_chunks.
    destruct (current_chunk_sentences _); simpl; [done|].
    rewrite Hnext. by apply positions_snoc.
  - pose proof (sentences_of_nonempty text) as Hne.
    induction (sentences_of text) as [|s0 ss _] using rev_ind; [done|].
    rewrite run_snoc. unfold final_chunks.
    destruct (step_cases (run ss initial_state) s0)
      as [(_ & _ & ->)|[(_ & _ & ->)|[(_ & _ & _ & ->)|(_ & _ & ->)]]];
      simpl.
    + apply snoc_not_nil.
    + apply snoc_not_nil.
    + rewrite nonempty_snoc. apply snoc_not_nil.
    + rewrite nonempty_snoc. apply snoc_not_nil.
  - intros pre suf Hsplit. rewrite Hsplit.
    unfold run_loop. rewrite fold_left_app.
    destruct (final_chunks_prefix
                (fold_left step1 suf (fold_left step1 pre initial_state)))
      as [new2 ->].
    destruct (run_chunks_prefix suf (fold_left step1 pre initial_state))
      as [new1 Hrun].
    unfold run_loop in Hrun. rewrite Hrun.
    exists (new1 ++ new2). by rewrite app_assoc.
Qed.

(** *** Token counts *)

(** The running count is the sum of the counts of the pending sentences,
    and so is the recorded count of every chunk emitted so far. *)
Lemma run_sums (sentences : list string) :
  let ok st :=
    current_token_count st = sumZ (count <$> current_chunk_sentences st)
    /\ Forall (fun s => s ∈ sentences) (current_chunk_sentences st)
    /\ Forall
         (fun c => exists ss,
            ss <> [] /\ Forall (fun s => s ∈ sentences) ss
            /\ Chunker.text c = join " " ss
            /\ token_count (Chunker.metadata c) = sumZ (count <$> ss))
         (chunks st) in
  ok (run sentences initial_state).
Proof.
  intros ok. apply run_invariant; cycle 1.
  { unfold ok. simpl. split_and!; [done|constructor|constructor]. }
  intros st s Hs (Htok & Hcur & Hchunks). unfold ok.
  assert (Hone : exists ss,
            ss <> [] /\ Forall (fun s => s ∈ sentences) ss
            /\ Chunker.text (chunk_of s (next_position st) (count s))
               = join " " ss
            /\ token_count
                 (Chunker.metadata (chunk_of s (next_position st) (count s)))
               = sumZ (count <$> ss)).
  { exists [s]. simpl. split_and!; [done|by constructor|done|].
    unfold sumZ. simpl. lia. }
  assert (Hpending : current_chunk_sentences st <> [] ->
            exists ss,
              ss <> [] /\ Forall (fun s => s ∈ sentences) ss
              /\ Chunker.text
                   (chunk_of (join " " (current_chunk_sentences st))
                      (next_position st) (current_token_count st))
                 = join " " ss
              /\ token_count
                   (Chunker.metadata
                      (chunk_of (join " " (current_chunk_sentences st))
                         (next_position st) (current_token_count st)))
                 = sumZ (count <$> ss)).
  { intros Hne. exists (current_chunk_sentences st). by simpl. }
  destruct (step_cases st s)
    as [(_ & Hne & ->)|[(_ & Hnil & ->)|[(_ & _ & Hne & ->)|(_ & _ & ->)]]];
    simpl.
  - split_and!; [done|constructor|].
    rewrite !Forall_app. split_and!; [done|by constructor; [apply Hpending|]|].
    constructor; [|done].
    destruct Hone as (ss & ? & ? & ? & ?). by exists ss.
  - rewrite Hnil in *. split_and!; [done|constructor|].
    rewrite Forall_app. split; [done|]. by constructor.
  - destruct (overlap_seed_spec (current_chunk_sentences st))
      as (dropped & seed & Hsplit & -> & _ & _). simpl.
    rewrite Hsplit in Hcur. apply Forall_app in Hcur as [_ Hseed].
    split_and!.
    + rewrite fmap_app, sumZ_app. unfold sumZ at 3. simpl. lia.
    + rewrite Forall_app. split; [done|by constructor].
    + rewrite Forall_app. split; [done|]. constructor; [by apply Hpending|done].
  - split_and!.
    + rewrite fmap_app, sumZ_app, Htok. unfold sumZ at 3. simpl. lia.
    + rewrite Forall_app. split; [done|by constructor].
    + done.
Qed.

(** C2 (as amended). The token count recorded for a chunk is the sum of
    the tokenizer's counts of the sentences the chunk is made of; the text
    of the chunk is these sentences joined with one space. For a chunk of
    one sentence this is the count of the text of the chunk. *)
Theorem chunk_token_count_is_sum (text : string) (c : TextChunk) :
  c ∈ chunk_text encode self text source title section ->
  exists ss,
    ss <> []
    /\ Forall (fun s => s ∈ sentences_of text) ss
    /\ Chunker.text c = join " " ss
    /\ token_count (Chunker.metadata c) = sumZ (count <$> ss)
    /\ (length ss = 1%nat ->
        token_count (Chunker.metadata c) = count (Chunker.text c)).
Proof.
  intros Hc.
  assert (exists ss,
    ss <> []
    /\ Forall (fun s => s ∈ sentences_of text) ss
    /\ Chunker.text c = join " " ss
    /\ token_count (Chunker.metadata c) = sumZ (count <$> ss))
    as (ss & Hne & Hin & Htext & Hcount).
  { destruct (all_space text) eqn:Hns.
    { unfold chunk_text in Hc. apply strip_empty_iff in Hns.
      rewrite Hns in Hc. simpl in Hc. by apply elem_of_nil in Hc. }
    rewrite (chunk_text_nonblank text Hns) in Hc.
    destruct (run_sums (sentences_of text)) as (Htok & Hcur & Hchunks).
    unfold final_chunks in Hc.
    rewrite list.Forall_forall in Hchunks.
    destruct (current_chunk_sentences _) as [|s0 rest] eqn:Hpending;
      simpl in Hc.
    - by apply Hchunks.
    - apply elem_of_app in Hc as [Hc|Hc]; [by apply Hchunks|].
      apply list_elem_of_singleton in Hc as ->.
      exists (s0 :: rest). simpl. split_and!; done. }
  exists ss. split_and!; try done.
  intros Hlen. destruct ss as [|s [|]]; try done.
  rewrite Hcount, Htext. simpl. unfold sumZ. simpl. lia.
Qed.

(** *** The token budget *)

(** No sentence is pending exactly when the running count is charged with
    nothing. *)
Lemma run_empty_pending (sentences : list string) :
  let st := run sentences initial_state in
  current_chunk_sentences st = [] -> current_token_count st = 0.
Proof.
  apply (run_invariant
    (fun st => current_chunk_sentences st = [] -> current_token_count st = 0));
    [|done].
  intros st s _ Hst.
  destruct (step_cases st s)
    as [(_ & _ & ->)|[(_ & Hnil & ->)|[(_ & _ & _ & ->)|(_ & _ & ->)]]];
    simpl; [done|by intros _; apply Hst| |];
    by intros ?%snoc_not_nil.
Qed.



(** *** Overlap seeding *)

(** C5. Whatever sentences [pre] the loop has gone through, when the next
    sentence [s] fits [chunk_size] by itself but not on top of the pending chunk,
    the pending chunk is closed and the next one starts from a seed: a
    suffix of the sentences of the closed chunk, taken from the end
    backwards up to the first sentence that would bring the total over
    [chunk_overlap]; the count the next chunk starts with is the sum of the
    counts of the seed, at most [chunk_overlap], and [s] comes on top of it.
    When [s] is oversized it is emitted as the last chunk so far, and
    nothing is pending after it: the chunk that follows starts empty. *)
Theorem overlap_seeding (pre : list string) (s : string) :
  0 <= chunk_overlap self ->
  (count s <= chunk_size self ->
   chunk_size self < current_token_count (run pre initial_state) + count s ->
   current_chunk_sentences (run pre initial_state) <> [] ->
   exists dropped seed,
     current_chunk_sentences (run pre initial_state) = dropped ++ seed
     /\ (dropped = []
         \/ exists d last_dropped,
              dropped = d ++ [last_dropped]
              /\ chunk_overlap self
                 < count last_dropped + sumZ (count <$> seed))
     /\ sumZ (count <$> seed) <= chunk_overlap self
     /\ chunks (run (pre ++ [s]) initial_state)
        = chunks (run pre initial_state) ++
          [chunk_of
             (join " " (current_chunk_sentences (run pre initial_state)))
             (next_position (run pre initial_state))
             (current_token_count (run pre initial_state))]
     /\ current_chunk_sentences (run (pre ++ [s]) initial_state)
        = seed ++ [s]
     /\ current_token_count (run (pre ++ [s]) initial_state)
        = sumZ (count <$> seed) + count s)
  /\ (chunk_size self < count s ->
      (exists before position,
         chunks (run (pre ++ [s]) initial_state)
           = before ++ [chunk_of s position (count s)])
      /\ current_chunk_sentences (run (pre ++ [s]) initial_state) = []
      /\ current_token_count (run (pre ++ [s]) initial_state) = 0).
Proof.
  intros Hov. rewrite run_snoc.
  pose proof (run_empty_pending pre) as Hzero. simpl in Hzero.
  split.
  - intros Hle Hpot Hne.
    destruct (step_cases (run pre initial_state) s)
      as [(Hlt & _ & _)|[(Hlt & _ & _)|
          [(_ & _ & _ & ->)|(_ & Hfit & _)]]]; [lia|lia| |].
    + destruct (overlap_seed_spec
                  (current_chunk_sentences (run pre initial_state)))
        as (dropped & seed & Hsplit & -> & Hseed & Hstop). simpl.
      exists dropped, seed. split_and!; try done.
      destruct Hseed as [->|Hseed]; [unfold sumZ; simpl|]; lia.
    + destruct Hfit as [Hfit|Hnil]; [lia|done].
  - intros Hlt.
    destruct (step_cases (run pre initial_state) s)
      as [(_ & _ & ->)|[(_ & Hnil & ->)|
          [(Hle & _ & _ & _)|(Hle & _ & _)]]]; [| |lia|lia]; simpl.
    + split_and!; [|done|done]. by eexists _, _.
    + split_and!; [|done|by apply Hzero]. by eexists _, _.
Qed.

End ChunkerProperties.

(** *** The chunker on concrete texts *)

Example split_into_sentences_example :
  Chunker.split_into_sentences
    "First sentence. Second sentence! Third sentence? Fourth sentence."
  = ["First sentence."; "Second sentence!"; "Third sentence?";
     "Fourth sentence."]%string.
Proof. reflexivity. Qed.

Example chunk_text_blank :
  Chunker.chunk_text encode_words default_chunker "" "user_input" None None = []
  /\ Chunker.chunk_text encode_words default_chunker "   " "user_input"
       None None = [].
Proof. split; reflexivity. Qed.


(** Two sentences of 9 and 13 characters in one chunk: the recorded count
    is 22, the joined text has 23 characters. *)
Example chunk_chars_example :
  Chunker.chunk_text encode_chars default_chunker "It works. We tested it."
    "user_input" None None
  = [Chunker.mk_chunk "user_input" None None "It works. We tested it." 0 22].
Proof. reflexivity. Qed.

Lemma chunk_positions_contiguous_witness :
  all_space "A b c. D e. F g h i. J." = false
  /\ positions
       (Chunker.chunk_text encode_words small_chunker
          "A b c. D e. F g h i. J." "user_input" None None)
     = [0; 1; 2].
Proof.
  split; [reflexivity|].
  destruct (chunk_positions_contiguous encode_words small_chunker
              "user_input" None None "A b c. D e. F g h i. J." eq_refl)
    as (Hpos & _ & _).
  rewrite Hpos. reflexivity.
Defined.

(** C2, the counterexample: with the tokenizer that gives one token per
    character, the chunk "It works. We tested it." records 22 tokens, the
    sum for its two sentences, and not the 23 of its text. *)
Lemma chunk_token_count_not_count_of_text :
  ~ (forall c,
       c ∈ Chunker.chunk_text encode_chars default_chunker
             "It works. We tested it." "user_input" None None ->
       Chunker.token_count (Chunker.metadata c)
         = Chunker.count_tokens encode_chars (Chunker.text c)).
Proof.
  intros H. rewrite chunk_chars_example in H.
  specialize (H _ (list_elem_of_here _ _)). vm_compute in H. discriminate H.
Qed.

Lemma chunk_token_count_is_sum_witness :
  Chunker.mk_chunk "user_input" None None "It works. We tested it." 0 22
    ∈ Chunker.chunk_text encode_chars default_chunker
        "It works. We tested it." "user_input" None None
  /\ exists ss,
       Chunker.text
         (Chunker.mk_chunk "user_input" None None "It works. We tested it."
            0 22) = join " " ss
       /\ Chunker.token_count
            (Chunker.metadata
               (Chunker.mk_chunk "user_input" None None
                  "It works. We tested it." 0 22))
          = sumZ (Chunker.count_tokens encode_chars <$> ss).
Proof.
  assert (Hin : Chunker.mk_chunk "user_input" None None
                  "It works. We tested it." 0 22
                ∈ Chunker.chunk_text encode_chars default_chunker
                    "It works. We tested it." "user_input" None None).
  { rewrite chunk_chars_example. apply list_elem_of_here. }
  split; [exact Hin|].
  destruct (chunk_token_count_is_sum encode_chars default_chunker
              "user_input" None None "It works. We tested it." _ Hin)
    as (ss & _ & _ & Htext & Hcount & _).
  exists ss. split; assumption.
Defined.



Lemma overlap_seeding_witness :
  0 <= Chunker.chunk_overlap small_chunker
  /\ exists dropped seed,
       Chunker.current_chunk_sentences
         (Chunker.run_loop encode_words small_chunker "user_input" None None
            ["A b c."; "D e."]%string Chunker.initial_state)
       = dropped ++ seed
       /\ sumZ (Chunker.count_tokens encode_words <$> seed)
          <= Chunker.chunk_overlap small_chunker
       /\ Chunker.current_chunk_sentences
            (Chunker.run_loop encode_words small_chunker "user_input"
               None None (["A b c."; "D e."]%string ++ ["F g h i."%string])
               Chunker.initial_state)
          = seed ++ ["F g h i."%string].
Proof.
  assert (Hov : 0 <= Chunker.chunk_overlap small_chunker)
    by (vm_compute; discriminate).
  split; [exact Hov|].
  destruct (overlap_seeding encode_words small_chunker "user_input" None None
              ["A b c."; "D e."]%string "F g h i."%string Hov)
    as [Hclose _].
  destruct Hclose as (dropped & seed & Hsplit & _ & Hle & _ & Hcur & _).
  - vm_compute. discriminate.
  - vm_compute. reflexivity.
  - vm_compute. discriminate.
  - exists dropped, seed. split; [exact Hsplit|]. split; [exact Hle|exact Hcur].
Defined.

(** ** Embedder *)

Section EmbeddingProperties.

Import Embedding.

Variable post : nat -> payload -> string + list embedding.
Variable self : EmbeddingService.

(** The filter of [generate_embeddings_batch] keeps the texts that are
    neither empty nor white space only. *)
Lemma is_valid_text_nonblank (t : string) :
  is_valid_text t = negb (all_space t).
Proof.
  unfold is_valid_text. rewrite <- blank_test.
  by destruct (str_truthy t), (str_truthy (strip t)).
Qed.

Lemma valid_texts_nonblank (texts : list string) :
  filter (fun t => is_valid_text t = true) texts
    = filter (fun t => all_space t = false) texts.
Proof.
  apply list_filter_iff. intros t. rewrite is_valid_text_nonblank.
  by destruct (all_space t).
Qed.

Lemma filter_drops_one {A} (P : A -> Prop) `{!forall x, Decision (P x)}
    (l : list A) (x : A) :
  x ∈ l -> ~ P x -> (length (filter P l) < length l)%nat.
Proof.
  intros Hx Hnp. induction l as [|y l IH]; [by apply elem_of_nil in Hx|].
  rewrite filter_cons. apply elem_of_cons in Hx as [->|Hx].
  - rewrite decide_False by done. simpl.
    pose proof (length_filter P l). lia.
  - specialize (IH Hx). destruct (decide (P y)); simpl; lia.
Qed.

(** A batch that comes back comes from a request, and every request of the
    retry loop carries the same texts. *)
Lemma attempts_returns (valid_texts : list string) (remaining : nat) :
  forall (attempt : nat) (embeddings : list embedding) log,
    attempts post self remaining attempt valid_texts
      = (Return (Some embeddings), log) ->
    (exists a,
       post a {| payload_model := model self; payload_input := valid_texts |}
         = inr embeddings)
    /\ (forall p, EPost p ∈ log -> payload_input p = valid_texts).
Proof.
  induction remaining as [|remaining IH]; intros attempt embeddings log;
    simpl; [done|].
  destruct (post attempt _) as [e|embs] eqn:Hpost.
  - destruct (Z.of_nat attempt <? max_retries self - 1); [|done].
    destruct (attempts post self remaining (S attempt) valid_texts)
      as [r log'] eqn:Hrec.
    intros [= -> <-]. destruct (IH _ _ _ Hrec) as [Hex Hlog].
    split; [done|]. intros p Hp.
    apply elem_of_cons in Hp as [[= ->]|Hp]; [done|].
    apply elem_of_cons in Hp as [[=]|Hp]. by apply Hlog.
  - intros [= -> <-]. split; [by exists attempt|].
    intros p Hp. apply list_elem_of_singleton in Hp as [= ->]. done.
Qed.

(** C10. [generate_embeddings_batch] drops the texts that are empty or
    white space only before it calls the embeddings API: every request
    carries the other texts only. With an API that answers one vector per
    text it is sent, a batch that holds a blank text next to a text that is
    not blank gives, when it succeeds, one vector per text that is not
    blank: fewer vectors than texts, so that the vector at an index is not
    the vector of the text at that index. *)
Theorem batch_drops_blank_texts (texts : list string)
    (embeddings : list embedding) (log : list (event payload)) :
  (forall attempt p out,
     post attempt p = inr out -> length out = length (payload_input p)) ->
  (exists t, t ∈ texts /\ all_space t = true) ->
  (exists t, t ∈ texts /\ all_space t = false) ->
  generate_embeddings_batch post self texts
    = (Return (Some embeddings), log) ->
  length embeddings = length (filter (fun t => all_space t = false) texts)
  /\ (length embeddings < length texts)%nat
  /\ (forall p,
        EPost p ∈ log ->
        payload_input p = filter (fun t => all_space t = false) texts).
Proof.
  intros Hcontract (blank & Hblank & Hb) _ Hrun.
  unfold generate_embeddings_batch in Hrun.
  destruct texts as [|t0 texts0] eqn:Htexts; [by apply elem_of_nil in Hblank|].
  rewrite <- Htexts in *. clear Htexts t0 texts0.
  rewrite valid_texts_nonblank in Hrun.
  destruct (filter (fun t => all_space t = false) texts)
    as [|v0 valid] eqn:Hvalid; [done|].
  rewrite <- Hvalid in *.
  destruct (attempts_returns _ _ _ _ _ Hrun) as [[a Hpost] Hlog].
  apply Hcontract in Hpost. simpl in Hpost.
  split_and!; [done| |done].
  rewrite Hpost. apply (filter_drops_one _ _ blank); [done|]. by rewrite Hb.
Qed.

End EmbeddingProperties.

Lemma batch_drops_blank_texts_witness :
  (forall attempt p out,
     embed_ok attempt p = inr out ->
     length out = length (Embedding.payload_input p))
  /\ (exists t, t ∈ ["alpha"; "  "; "beta"]%string /\ all_space t = true)
  /\ (exists t, t ∈ ["alpha"; "  "; "beta"]%string /\ all_space t = false)
  /\ Embedding.generate_embeddings_batch embed_ok example_embedder
       ["alpha"; "  "; "beta"]%string
     = (Return (Some [[Q2Qc 0]; [Q2Qc 0]]),
        [EPost {| Embedding.payload_model := "jina-embeddings-v3";
                  Embedding.payload_input := ["alpha"; "beta"]%string |}])
  /\ (length [[Q2Qc 0]; [Q2Qc 0]] < length ["alpha"; "  "; "beta"]%string)%nat.
Proof.
  assert (Hcontract : forall attempt p out,
            embed_ok attempt p = inr out ->
            length out = length (Embedding.payload_input p)).
  { intros attempt p out [= <-]. apply length_fmap. }
  assert (Hblank : exists t,
            t ∈ ["alpha"; "  "; "beta"]%string /\ all_space t = true).
  { exists "  "%string. split; [|reflexivity].
    apply list_elem_of_further, list_elem_of_here. }
  assert (Hfull : exists t,
            t ∈ ["alpha"; "  "; "beta"]%string /\ all_space t = false).
  { exists "alpha"%string. split; [|reflexivity]. apply list_elem_of_here. }
  assert (Hrun : Embedding.generate_embeddings_batch embed_ok example_embedder
                   ["alpha"; "  "; "beta"]%string
                 = (Return (Some [[Q2Qc 0]; [Q2Qc 0]]),
                    [EPost {| Embedding.payload_model := "jina-embeddings-v3";
                              Embedding.payload_input :=
                                ["alpha"; "beta"]%string |}]))
    by reflexivity.
  split; [exact Hcontract|]. split; [exact Hblank|]. split; [exact Hfull|].
  split; [exact Hrun|].
  exact (proj1 (proj2 (batch_drops_blank_texts embed_ok example_embedder
                         _ _ _ Hcontract Hblank Hfull Hrun))).
Defined.

(** ** Reranker *)

Section SortProperties.

Import Reranker.

Context {A : Type} (key : A -> Qc).

Lemma insert_desc_perm (x : A) (l : list A) :
  insert_desc key x l ≡ₚ x :: l.
Proof.
  induction l as [|y l IH]; simpl; [done|].
  destruct (decide (key x < key y)%Qc); [|done].
  rewrite IH. apply Permutation_swap.
Qed.

Lemma sorted_reverse_perm (l : list A) : sorted_reverse key l ≡ₚ l.
Proof.
  induction l as [|x l IH]; simpl; [done|].
  by rewrite insert_desc_perm, IH.
Qed.





End SortProperties.

Section RerankerProperties.

Import Reranker.

Variable post : nat -> payload -> string + list (Z * Qc).
Variable self : RerankerService.

Lemma py_slice_to_nonneg {A} (l : list A) (k : Z) :
  0 <= k -> py_slice_to l k = take (Z.to_nat k) l.
Proof. intros Hk. unfold py_slice_to. by rewrite (proj2 (Z.leb_le 0 k) Hk). Qed.

(** Past the checks of its arguments, [rerank] is the retry loop. *)
Lemma rerank_valid_input (query : string) (chunks : list pydict)
    (top_k_arg : option Z) (texts : list value) :
  all_space query = false ->
  chunks <> [] ->
  texts_of chunks = Return texts ->
  rerank post self query chunks top_k_arg
    = (Return
         (fst (attempts post self (Z.to_nat (max_retries self)) 0
                 (make_payload self query chunks texts) chunks
                 (int_or top_k_arg (top_k self)))),
       snd (attempts post self (Z.to_nat (max_retries self)) 0
              (make_payload self query chunks texts) chunks
              (int_or top_k_arg (top_k self)))).
Proof.
  intros Hq Hne Htexts. unfold rerank. rewrite blank_test, Hq.
  destruct chunks as [|c chunks]; [done|]. rewrite Htexts.
  by destruct (attempts _ _ _ _ _ _ _).
Qed.







End RerankerProperties.

(** *** The reranker on concrete candidates *)

Example texts_of_example :
  Reranker.texts_of [chunk_a; chunk_b] = Return [VStr "alpha"; VStr "beta"].
Proof. reflexivity. Qed.





(** * Properties of the rest of the code *)

(** ** Chunker: what [chunk_text] keeps *)

Lemma all_space_app (a b : string) :
  all_space (a +:+ b) = all_space a && all_space b.
Proof.
  induction a as [|c a IH]; simpl; [done|].
  rewrite IH. by rewrite andb_assoc.
Qed.

Lemma all_space_rstrip (s : string) : all_space (rstrip s) = all_space s.
Proof.
  induction s as [|c s IH]; simpl; [done|].
  destruct (py_isspace c) eqn:Hc; simpl.
  - destruct (rstrip s) as [|c' r] eqn:Hr; simpl.
    + symmetry. by apply rstrip_empty_iff.
    + rewrite Hc. simpl. by rewrite <- IH.
  - by rewrite Hc.
Qed.

Lemma all_space_strip (s : string) : all_space (strip s) = all_space s.
Proof. unfold strip. by rewrite all_space_rstrip, all_space_lstrip. Qed.

(** The sentences of the splitter have a character that is not white
    space. *)
Lemma split_into_sentences_nonblank (text : string) :
  Forall (fun s => all_space s = false) (Chunker.split_into_sentences text).
Proof.
  unfold Chunker.split_into_sentences.
  apply list.Forall_forall. intros s Hs.
  apply list_elem_of_fmap in Hs as (s0 & -> & Hs0).
  apply list_elem_of_filter in Hs0 as [Hs0 _].
  destruct (all_space (strip s0)) eqn:Hb; [|done].
  rewrite all_space_strip in Hb.
  apply strip_empty_iff in Hb. by rewrite Hb in Hs0.
Qed.

Lemma sentences_of_nonblank (text : string) :
  all_space text = false ->
  Forall (fun s => all_space s = false) (Chunker.sentences_of text).
Proof.
  intros Hns. unfold Chunker.sentences_of.
  pose proof (split_into_sentences_nonblank text) as H.
  destruct (Chunker.split_into_sentences text); simpl; [|done].
  by constructor.
Qed.

Lemma join_nonblank (ss : list string) :
  ss <> [] -> Forall (fun s => all_space s = false) ss ->
  all_space (join " " ss) = false.
Proof.
  intros Hne Hall. destruct Hall as [|s ss Hs Hall]; [done|].
  destruct ss as [|s' ss]; simpl; [done|].
  by rewrite all_space_app, Hs.
Qed.

Section ChunkerKeeps.

Import Chunker.

Variable encode : string -> list nat.
Variable self : TextChunker.
Variable source : string.
Variable title section : option string.

Local Abbreviation count := (count_tokens encode).
Local Abbreviation step1 := (step encode self source title section).
Local Abbreviation run := (run_loop encode self source title section).
Local Abbreviation chunk_of := (mk_chunk source title section).
Local Abbreviation cases := (step_cases encode self source title section).
Local Abbreviation invariant :=
  (run_invariant encode self source title section).

Lemma chunk_text_blank_nil (text : string) :
  all_space text = true ->
  chunk_text encode self text source title section = [].
Proof.
  intros Hb. unfold chunk_text. apply strip_empty_iff in Hb. by rewrite Hb.
Qed.

(** After at least one sentence there is a chunk, emitted or pending. *)
Lemma final_chunks_nonempty (sentences : list string) :
  sentences <> [] ->
  final_chunks source title section (run sentences initial_state) <> [].
Proof.
  intros Hne.
  induction sentences as [|s0 ss _] using rev_ind; [done|].
  rewrite (run_snoc encode self source title section). unfold final_chunks.
  destruct (cases (run ss initial_state) s0)
    as [(_ & _ & ->)|[(_ & _ & ->)|[(_ & _ & _ & ->)|(_ & _ & ->)]]];
    simpl.
  - apply snoc_not_nil.
  - apply snoc_not_nil.
  - rewrite nonempty_snoc. apply snoc_not_nil.
  - rewrite nonempty_snoc. apply snoc_not_nil.
Qed.

(** X1. [chunk_text] returns no chunk exactly for the texts that are empty
    or white space only: every other text gives at least one chunk. *)
Theorem chunk_text_nil_iff_blank (text : string) :
  chunk_text encode self text source title section = []
  <-> all_space text = true.
Proof.
  split; [|apply chunk_text_blank_nil].
  intros Hnil. destruct (all_space text) eqn:Hb; [done|].
  rewrite (chunk_text_nonblank encode self source title section text Hb)
    in Hnil.
  by apply final_chunks_nonempty in Hnil; [|apply sentences_of_nonempty].
Qed.

(** X2. Every chunk of [chunk_text] carries the source, the title and the
    section the call was given, whatever the text. *)
Theorem chunk_metadata_preserved (text : string) (c : TextChunk) :
  c ∈ chunk_text encode self text source title section ->
  Chunker.source (Chunker.metadata c) = source
  /\ Chunker.title (Chunker.metadata c) = title
  /\ Chunker.section (Chunker.metadata c) = section.
Proof.
  intros Hc. destruct (all_space text) eqn:Hb.
  { rewrite (chunk_text_blank_nil text Hb) in Hc. by apply elem_of_nil in Hc. }
  rewrite (chunk_text_nonblank encode self source title section text Hb)
    in Hc.
  assert (Hall : Forall
            (fun c => Chunker.source (Chunker.metadata c) = source
                      /\ Chunker.title (Chunker.metadata c) = title
                      /\ Chunker.section (Chunker.metadata c) = section)
            (chunks (run (sentences_of text) initial_state))).
  { apply invariant; [|constructor].
    intros st s _ Hst.
    destruct (cases st s)
      as [(_ & _ & ->)|[(_ & _ & ->)|[(_ & _ & _ & ->)|(_ & _ & ->)]]];
      simpl; rewrite ?Forall_app; repeat split; try done;
      by repeat constructor. }
  rewrite list.Forall_forall in Hall. unfold final_chunks in Hc.
  destruct (nonempty _); [|by apply Hall].
  apply elem_of_app in Hc as [Hc|Hc]; [by apply Hall|].
  by apply list_elem_of_singleton in Hc as ->.
Qed.

(** The text of every chunk has a character that is not white space. *)
Lemma chunk_texts_nonblank (text : string) :
  Forall (fun c => all_space (Chunker.text c) = false)
    (chunk_text encode self text source title section).
Proof.
  destruct (all_space text) eqn:Hb.
  { rewrite (chunk_text_blank_nil text Hb). constructor. }
  rewrite (chunk_text_nonblank encode self source title section text Hb).
  pose proof (sentences_of_nonblank text Hb) as Hsent.
  rewrite list.Forall_forall in Hsent.
  assert (Hinv :
    Forall (fun s => all_space s = false)
      (current_chunk_sentences (run (sentences_of text) initial_state))
    /\ Forall (fun c => all_space (Chunker.text c) = false)
         (chunks (run (sentences_of text) initial_state))).
  { apply (invariant
      (fun st =>
         Forall (fun s => all_space s = false) (current_chunk_sentences st)
         /\ Forall (fun c => all_space (Chunker.text c) = false) (chunks st)));
      [|by split; constructor].
    intros st s Hs [Hcur Hchunks]. specialize (Hsent s Hs).
    destruct (cases st s)
      as [(_ & Hne & ->)|[(_ & Hnil & ->)|[(_ & _ & Hne & ->)|(_ & _ & ->)]]];
      simpl.
    - split; [constructor|]. rewrite !Forall_app. split_and!; [done| |].
      + constructor; [|done]. simpl. by apply join_nonblank.
      + by constructor.
    - split; [constructor|]. rewrite Forall_app. split; [done|].
      by constructor.
    - destruct (overlap_seed_spec encode self (current_chunk_sentences st))
        as (dropped & seed & Hsplit & -> & _ & _). simpl.
      split.
      + rewrite Forall_app. split; [|by constructor].
        rewrite Hsplit in Hcur. by apply Forall_app in Hcur as [_ ?].
      + rewrite Forall_app. split; [done|]. constructor; [|done].
        simpl. by apply join_nonblank.
    - split; [|done]. rewrite Forall_app. split; [done|by constructor]. }
  destruct Hinv as [Hcur Hchunks]. unfold final_chunks.
  destruct (current_chunk_sentences _) as [|s0 rest] eqn:Hpending; simpl;
    [done|].
  rewrite Forall_app. split; [done|]. constructor; [|done].
  simpl. by apply (join_nonblank (s0 :: rest)).
Qed.

Lemma seeds_from_snoc (prev : list string)
    (parts : list (list string * list string)) (seed body : list string) :
  seeds_from prev (parts ++ [(seed, body)])
  <-> seeds_from prev parts /\ seed `suffix_of` last_sentences prev parts.
Proof.
  revert prev. induction parts as [|[sd bd] parts IH]; intros prev; simpl.
  - tauto.
  - rewrite IH. tauto.
Qed.

Lemma last_sentences_snoc (prev : list string)
    (parts : list (list string * list string)) (seed body : list string) :
  last_sentences prev (parts ++ [(seed, body)]) = seed ++ body.
Proof.
  revert prev. induction parts as [|[sd bd] parts IH]; intros prev; simpl;
    [done|apply IH].
Qed.

Lemma concat_bodies_snoc (parts : list (list string * list string))
    (seed body : list string) :
  concat (snd <$> (parts ++ [(seed, body)])) = concat (snd <$> parts) ++ body.
Proof. rewrite fmap_app, concat_app. simpl. by rewrite app_nil_r. Qed.

Lemma nonempty_parts_length (parts : list (list string * list string)) :
  Forall (fun p => p.2 <> []) parts ->
  (length parts <= length (concat (snd <$> parts)))%nat.
Proof.
  induction 1 as [|[seed body] parts Hb Hall IH]; [done|].
  rewrite fmap_cons. cbn [concat snd].
  rewrite length_app. destruct body as [|b body]; [done|].
  cbn [length]. lia.
Qed.

(** The loop splits the sentences it has gone through into the bodies of
    the chunks, in order, and starts a chunk from a suffix of the chunk
    before only. *)
Lemma step_partition (done_ : list string) (st : loop_state) (s : string) :
  (exists parts seed body,
     Forall2 (fun c p => Chunker.text c = join " " (p.1 ++ p.2) /\ p.2 <> [])
       (chunks st) parts
     /\ current_chunk_sentences st = seed ++ body
     /\ concat (snd <$> parts) ++ body = done_
     /\ seeds_from [] parts
     /\ seed `suffix_of` last_sentences [] parts
     /\ (body = [] -> seed = [])) ->
  exists parts seed body,
    Forall2 (fun c p => Chunker.text c = join " " (p.1 ++ p.2) /\ p.2 <> [])
      (chunks (step1 st s)) parts
    /\ current_chunk_sentences (step1 st s) = seed ++ body
    /\ concat (snd <$> parts) ++ body = done_ ++ [s]
    /\ seeds_from [] parts
    /\ seed `suffix_of` last_sentences [] parts
    /\ (body = [] -> seed = []).
Proof.
  intros (parts & seed & body & Hchunks & Hcur & Hdone & Hseeds & Hsuf & Hb).
  assert (Hbody : current_chunk_sentences st <> [] -> body <> []).
  { intros Hne ->. rewrite (Hb eq_refl) in Hcur. done. }
  destruct (cases st s)
    as [(_ & Hne & ->)|[(_ & Hnil & ->)|[(_ & _ & Hne & ->)|(_ & _ & ->)]]];
    simpl.
  - exists ((parts ++ [(seed, body)]) ++ [([], [s])]), [], [].
    split_and!; try done.
    + apply Forall2_app; [apply Forall2_app; [done|]|].
      * constructor; [|constructor]. simpl. rewrite Hcur. auto.
      * constructor; [|constructor]. simpl. done.
    + rewrite !concat_bodies_snoc, app_nil_r, <- Hdone. done.
    + rewrite !seeds_from_snoc. split_and!; [done|done|apply suffix_nil].
    + apply suffix_nil.
  - rewrite Hnil in Hcur. symmetry in Hcur.
    apply app_eq_nil in Hcur as [-> ->].
    exists (parts ++ [([], [s])]), [], [].
    split_and!; try done.
    + apply Forall2_app; [done|]. constructor; [|constructor]. simpl. done.
    + rewrite concat_bodies_snoc, app_nil_r, <- Hdone.
      by rewrite app_nil_r.
    + rewrite seeds_from_snoc. split; [done|apply suffix_nil].
    + apply suffix_nil.
  - destruct (overlap_seed_spec encode self (current_chunk_sentences st))
      as (dropped & seed' & Hsplit & -> & _ & _). simpl.
    exists (parts ++ [(seed, body)]), seed', [s].
    split_and!; try done.
    + apply Forall2_app; [done|]. constructor; [|constructor]. simpl.
      rewrite Hcur. auto.
    + rewrite concat_bodies_snoc, <- Hdone. done.
    + by rewrite seeds_from_snoc.
    + rewrite last_sentences_snoc, <- Hcur, Hsplit. by apply suffix_app_r.
  - exists parts, seed, (body ++ [s]).
    split_and!; try done.
    + by rewrite Hcur, <- app_assoc.
    + by rewrite app_assoc, Hdone.
    + by intros ?%snoc_not_nil.
Qed.

Lemma run_partition (sentences : list string) :
  forall (done_ : list string) (st : loop_state),
    (exists parts seed body,
       Forall2
         (fun c p => Chunker.text c = join " " (p.1 ++ p.2) /\ p.2 <> [])
         (chunks st) parts
       /\ current_chunk_sentences st = seed ++ body
       /\ concat (snd <$> parts) ++ body = done_
       /\ seeds_from [] parts
       /\ seed `suffix_of` last_sentences [] parts
       /\ (body = [] -> seed = [])) ->
    exists parts seed body,
      Forall2
        (fun c p => Chunker.text c = join " " (p.1 ++ p.2) /\ p.2 <> [])
        (chunks (run sentences st)) parts
      /\ current_chunk_sentences (run sentences st) = seed ++ body
      /\ concat (snd <$> parts) ++ body = done_ ++ sentences
      /\ seeds_from [] parts
      /\ seed `suffix_of` last_sentences [] parts
      /\ (body = [] -> seed = []).
Proof.
  unfold run_loop.
  induction sentences as [|s ss IH]; intros done_ st Hst; simpl.
  - by rewrite app_nil_r.
  - replace (done_ ++ s :: ss) with ((done_ ++ [s]) ++ ss)
      by (by rewrite <- app_assoc).
    apply IH. by apply step_partition.
Qed.

(** X3. For a text that is not blank, the chunks of [chunk_text] split the
    sentences of the text, in order and without loss: every chunk is its
    seed followed by its body, joined with one space; the bodies, one
    after the other, are the sentences of the text; every body has a
    sentence, so that there are at most as many chunks as sentences; and
    every seed is a suffix of the sentences of the chunk before (the first
    chunk has no seed). *)
Theorem chunks_partition_sentences (text : string) :
  all_space text = false ->
  exists parts : list (list string * list string),
    Forall2 (fun c p => Chunker.text c = join " " (p.1 ++ p.2) /\ p.2 <> [])
      (chunk_text encode self text source title section) parts
    /\ concat (snd <$> parts) = sentences_of text
    /\ seeds_from [] parts
    /\ (length (chunk_text encode self text source title section)
        <= length (sentences_of text))%nat.
Proof.
  intros Hb.
  rewrite (chunk_text_nonblank encode self source title section text Hb).
  destruct (run_partition (sentences_of text) [] initial_state)
    as (parts & seed & body & Hchunks & Hcur & Hdone & Hseeds & Hsuf & Hbody).
  { exists [], [], []. simpl. split_and!; done. }
  simpl in Hdone.
  assert (Hfinal : exists parts',
    Forall2 (fun c p => Chunker.text c = join " " (p.1 ++ p.2) /\ p.2 <> [])
      (final_chunks source title section
         (run (sentences_of text) initial_state)) parts'
    /\ concat (snd <$> parts') = sentences_of text
    /\ seeds_from [] parts').
  { unfold final_chunks.
    destruct (current_chunk_sentences _) as [|s0 rest] eqn:Hpending; simpl.
    - symmetry in Hcur. apply app_eq_nil in Hcur as [-> ->].
      exists parts. rewrite app_nil_r in Hdone. done.
    - exists (parts ++ [(seed, body)]). split_and!.
      + apply Forall2_app; [done|]. constructor; [|constructor]. simpl.
        rewrite <- Hcur. split; [done|].
        intros ->. rewrite (Hbody eq_refl) in Hcur. done.
      + by rewrite concat_bodies_snoc.
      + by rewrite seeds_from_snoc. }
  destruct Hfinal as (parts' & Hall & Hconcat & Hseeds').
  exists parts'. split_and!; try done.
  rewrite (Forall2_length _ _ _ Hall), <- Hconcat.
  apply nonempty_parts_length.
  clear -Hall. induction Hall as [|c p cs ps [_ Hp] _ IH]; by constructor.
Qed.

End ChunkerKeeps.

(** ** Sentence splitting: what [split_into_sentences] keeps *)

Lemma append_cons_str (x : ascii) (a b : string) :
  String x a +:+ b = String x (a +:+ b).
Proof. reflexivity. Qed.

Lemma append_assoc_str (a b c : string) : (a +:+ b) +:+ c = a +:+ (b +:+ c).
Proof.
  induction a as [|x a IH]; [done|]. by rewrite !append_cons_str, IH.
Qed.

Lemma append_nil_r_str (a : string) : a +:+ "" = a.
Proof. induction a as [|x a IH]; [done|]. by rewrite append_cons_str, IH. Qed.

Lemma remove_spaces_app (a b : string) :
  remove_spaces (a +:+ b) = remove_spaces a +:+ remove_spaces b.
Proof.
  induction a as [|c a IH]; [done|].
  rewrite append_cons_str. simpl.
  destruct (py_isspace c); by rewrite ?append_cons_str, IH.
Qed.

Lemma remove_spaces_blank (s : string) :
  all_space s = true -> remove_spaces s = "".
Proof.
  induction s as [|c s IH]; simpl; [done|].
  destruct (py_isspace c); simpl; [exact IH|done].
Qed.

Lemma remove_spaces_lstrip (s : string) :
  remove_spaces (lstrip s) = remove_spaces s.
Proof.
  induction s as [|c s IH]; simpl; [done|].
  destruct (py_isspace c) eqn:Hc; simpl; [done|]. by rewrite Hc.
Qed.

Lemma remove_spaces_rstrip (s : string) :
  remove_spaces (rstrip s) = remove_spaces s.
Proof.
  induction s as [|c s IH]; simpl; [done|].
  destruct (py_isspace c) eqn:Hc; simpl.
  - destruct (rstrip s) as [|c' r] eqn:Hr; simpl.
    + symmetry. apply remove_spaces_blank. by apply rstrip_empty_iff.
    + rewrite Hc. by rewrite <- IH.
  - rewrite Hc. by rewrite IH.
Qed.

Lemma remove_spaces_strip (s : string) :
  remove_spaces (strip s) = remove_spaces s.
Proof. unfold strip. by rewrite remove_spaces_rstrip, remove_spaces_lstrip. Qed.

Lemma span_space_spec (s : string) :
  s = (Chunker.span_space s).1 +:+ (Chunker.span_space s).2
  /\ all_space (Chunker.span_space s).1 = true.
Proof.
  induction s as [|c s [IH1 IH2]]; simpl; [done|].
  destruct (py_isspace c) eqn:Hc; [|done].
  destruct (Chunker.span_space s) as [ws rest]. simpl in *.
  rewrite Hc. split; [by rewrite append_cons_str, <- IH1|done].
Qed.

(** A match of the boundary pattern is white space at the head of the
    text (or nothing). *)
Lemma match_boundary_spec (prev : option ascii) (s m rest : string) :
  Chunker.match_boundary prev s = Some (m, rest) ->
  s = m +:+ rest /\ all_space m = true.
Proof.
  unfold Chunker.match_boundary. intros H.
  destruct prev as [p|]; [|done].
  destruct (Chunker.is_terminal p); [|done].
  destruct (span_space_spec s) as [Hs Hws].
  assert (Hend : match s with
                 | EmptyString => Some (EmptyString, s)
                 | String "010" EmptyString => Some (EmptyString, s)
                 | _ => None
                 end = Some (m, rest) ->
                 s = m +:+ rest /\ all_space m = true).
  { clear. intros H. destruct s as [|c s']; [by inversion H|].
    destruct c as [[] [] [] [] [] [] [] []]; destruct s'; try done;
      by inversion H. }
  destruct (Chunker.span_space s) as [[|w ws] [|u rest']]; simpl in *;
    try (by apply Hend).
  destruct (py_isupper_AZ u); [|done].
  inversion H; subst. done.
Qed.

Lemma split_fuel_keeps (fuel : nat) :
  forall (prev : option ascii) (s piece : string),
    remove_spaces (concat_strings (Chunker.split_fuel fuel prev s piece))
    = remove_spaces (piece +:+ s).
Proof.
  induction fuel as [|fuel IH]; intros prev s piece; simpl.
  - by rewrite append_nil_r_str.
  - destruct (Chunker.match_boundary prev s) as [[[|w ws] rest]|] eqn:Hmb.
    + destruct s as [|c s]; simpl concat_strings.
      * by rewrite !remove_spaces_app.
      * rewrite !remove_spaces_app, IH.
        by change (String c "" +:+ s) with (String c s).
    + apply match_boundary_spec in Hmb as [-> Hws].
      simpl concat_strings.
      rewrite !remove_spaces_app, IH, (remove_spaces_blank _ Hws).
      by change ("" +:+ rest) with rest.
    + destruct s as [|c s]; simpl concat_strings.
      * by rewrite !remove_spaces_app.
      * rewrite IH, append_assoc_str.
        by change (String c "" +:+ s) with (String c s).
Qed.

Lemma strip_filter_keeps (pieces : list string) :
  remove_spaces
    (concat_strings
       (strip <$> filter (fun s => str_truthy (strip s) = true) pieces))
  = remove_spaces (concat_strings pieces).
Proof.
  induction pieces as [|p pieces IH]; [done|].
  rewrite filter_cons. simpl concat_strings.
  rewrite (remove_spaces_app p), <- IH.
  destruct (decide (str_truthy (strip p) = true)) as [Hp|Hp].
  - rewrite fmap_cons. simpl concat_strings.
    by rewrite remove_spaces_app, remove_spaces_strip.
  - destruct (strip p) eqn:Hs; [|done].
    apply strip_empty_iff in Hs. by rewrite (remove_spaces_blank _ Hs).
Qed.

(** X4. [split_into_sentences] loses nothing but white space: the
    sentences, one after the other and without their white space, are the
    text without its white space; and no sentence is empty or white space
    only. *)
Theorem split_into_sentences_keeps_text (text : string) :
  remove_spaces (concat_strings (Chunker.split_into_sentences text))
    = remove_spaces text
  /\ Forall (fun s => all_space s = false) (Chunker.split_into_sentences text).
Proof.
  split; [|apply split_into_sentences_nonblank].
  unfold Chunker.split_into_sentences, Chunker.re_split.
  by rewrite strip_filter_keeps, split_fuel_keeps.
Qed.

(** ** Embedder: the retry loops *)

Section EmbeddingRetries.

Import Embedding.

Variable post : nat -> payload -> string + list embedding.
Variable self : EmbeddingService.

(** Every request of the batch loop carries the texts it was given. *)
Lemma attempts_log_payload (valid_texts : list string) (remaining : nat) :
  forall (attempt : nat) p,
    EPost p ∈ (attempts post self remaining attempt valid_texts).2 ->
    p = {| payload_model := model self; payload_input := valid_texts |}.
Proof.
  induction remaining as [|remaining IH]; intros attempt p; simpl.
  { by intros ?%elem_of_nil. }
  destruct (post attempt _) as [e|embs].
  - destruct (Z.of_nat attempt <? max_retries self - 1).
    + destruct (attempts post self remaining (S attempt) valid_texts)
        as [r log] eqn:Hrec. simpl.
      intros Hp. apply elem_of_cons in Hp as [[= ->]|Hp]; [done|].
      apply elem_of_cons in Hp as [[=]|Hp].
      apply (IH (S attempt)). by rewrite Hrec.
    + simpl. by intros [= ->]%list_elem_of_singleton.
  - simpl. by intros [= ->]%list_elem_of_singleton.
Qed.





End EmbeddingRetries.

(** ** Ingest: from the chunks to the vectors *)

Section IngestPath.

Variable encode : string -> list nat.
Variable chunker : Chunker.TextChunker.
Variable post : nat -> Embedding.payload -> string + list Embedding.embedding.
Variable embedder : Embedding.EmbeddingService.

(** X7. The embedder drops no chunk of [chunk_text]: the texts of the
    chunks all have a character that is not white space, so that every
    request of [generate_embeddings_batch] on them carries them all, in
    order; with an API that answers one vector per text, the batch that
    comes back has one vector per chunk. *)
Theorem chunk_texts_embedded_unfiltered (text source : string)
    (title section : option string)
    (embeddings : list Embedding.embedding)
    (log : list (event Embedding.payload)) :
  (forall attempt p out,
     post attempt p = inr out ->
     length out = length (Embedding.payload_input p)) ->
  Embedding.generate_embeddings_batch post embedder
    (Chunker.text <$>
       Chunker.chunk_text encode chunker text source title section)
    = (Return (Some embeddings), log) ->
  length embeddings
    = length (Chunker.chunk_text encode chunker text source title section)
  /\ (forall p,
        EPost p ∈ log ->
        Embedding.payload_input p
          = Chunker.text <$>
              Chunker.chunk_text encode chunker text source title section).
Proof.
  intros Hcontract Hrun.
  pose proof (chunk_texts_nonblank encode chunker source title section text)
    as Hnb.
  assert (Hkeep :
    filter (fun t => Embedding.is_valid_text t = true)
      (Chunker.text <$>
         Chunker.chunk_text encode chunker text source title section)
    = Chunker.text <$>
        Chunker.chunk_text encode chunker text source title section).
  { rewrite valid_texts_nonblank. clear Hrun.
    induction Hnb as [|c cs Hc _ IH]; [done|].
    rewrite fmap_cons, filter_cons, decide_True by done. by rewrite IH. }
  unfold Embedding.generate_embeddings_batch in Hrun.
  destruct (Chunker.text <$> Chunker.chunk_text encode chunker text source
              title section) as [|t0 ts] eqn:Htexts.
  { injection Hrun as <- <-. split; [|by intros p ?%elem_of_nil].
    apply fmap_nil_inv in Htexts. by rewrite Htexts. }
  rewrite <- Htexts in *. rewrite Hkeep, Htexts in Hrun.
  rewrite <- Htexts in Hrun.
  destruct (attempts_returns post embedder _ _ _ _ _ Hrun) as [[a Hpost] Hlog].
  apply Hcontract in Hpost. simpl in Hpost.
  split; [by rewrite Hpost, length_fmap|done].
Qed.

End IngestPath.

(** ** Vector store *)

Section VectorStoreProperties.

Import VectorStore.

Variable py_str : value -> string.
Variable md5_hexdigest : string -> string.
Variable index_upsert : list vector -> string -> string + Z.

Local Abbreviation make_vector1 := (make_vector py_str md5_hexdigest).
Local Abbreviation make_vectors1 := (make_vectors py_str md5_hexdigest).
Local Abbreviation upsert :=
  (upsert_chunks py_str md5_hexdigest index_upsert).

Lemma make_vector_chunk_to_dict (chunk : Chunker.TextChunk)
    (embedding : Embedding.embedding) :
  make_vector1 (Chunker.chunk_to_dict chunk) embedding
  = Return
      {| vec_id :=
           md5_hexdigest
             (py_str (VStr (Chunker.text chunk)) +:+ "_"
              +:+ py_str (VStr (Chunker.source (Chunker.metadata chunk)))
              +:+ "_"
              +:+ py_str (VInt (Chunker.position (Chunker.metadata chunk))));
         vec_values := embedding;
         vec_metadata := stored_metadata chunk |}.
Proof.
  destruct chunk as [text [source title section position token_count]].
  unfold make_vector, Chunker.chunk_to_dict, generate_chunk_id, dict_item,
    dict_get, stored_metadata. simpl.
  by destruct title as [[|c t]|], section as [[|c' t']|].
Qed.

(** X8. The dictionary [chunk_to_dict] makes of a chunk always gives a
    vector: its id is the hash of the text, the source and the position,
    joined with underscores, and of nothing else; its values are the
    embedding; its metadata holds the text, the source, the position and
    the token count, and the title and the section only when they are set
    and not empty. *)
Theorem vector_of_chunk_to_dict (chunk : Chunker.TextChunk)
    (embedding : Embedding.embedding) :
  exists v,
    make_vector1 (Chunker.chunk_to_dict chunk) embedding = Return v
    /\ vec_id v
       = md5_hexdigest
           (py_str (VStr (Chunker.text chunk)) +:+ "_"
            +:+ py_str (VStr (Chunker.source (Chunker.metadata chunk)))
            +:+ "_"
            +:+ py_str (VInt (Chunker.position (Chunker.metadata chunk))))
    /\ vec_values v = embedding
    /\ vec_metadata v !! "text" = Some (VStr (Chunker.text chunk))
    /\ vec_metadata v !! "source"
       = Some (VStr (Chunker.source (Chunker.metadata chunk)))
    /\ vec_metadata v !! "position"
       = Some (VInt (Chunker.position (Chunker.metadata chunk)))
    /\ vec_metadata v !! "token_count"
       = Some (VInt (Chunker.token_count (Chunker.metadata chunk)))
    /\ vec_metadata v !! "title"
       = match Chunker.title (Chunker.metadata chunk) with
         | Some (String c t) => Some (VStr (String c t))
         | _ => None
         end
    /\ vec_metadata v !! "section"
       = match Chunker.section (Chunker.metadata chunk) with
         | Some (String c t) => Some (VStr (String c t))
         | _ => None
         end.
Proof.
  eexists. split; [apply make_vector_chunk_to_dict|].
  destruct chunk as [text [source title section position token_count]].
  unfold stored_metadata. simpl.
  destruct title as [[|c t]|], section as [[|c' t']|]; simpl;
    split_and!; reflexivity.
Qed.

(** The loop over [zip(chunks, embeddings)] makes the vector of every
    chunk with the embedding at the same index. *)
Lemma make_vectors_spec (chunks : list pydict) :
  forall (embeddings : list Embedding.embedding) (vectors : list vector),
    length chunks = length embeddings ->
    make_vectors1 chunks embeddings = Return vectors ->
    Forall2 (fun ce v => make_vector1 ce.1 ce.2 = Return v)
      (zip chunks embeddings) vectors.
Proof.
  induction chunks as [|chunk chunks IH]; intros [|e embeddings] vectors Hlen;
    simpl in *; try lia.
  - intros [= <-]. constructor.
  - destruct (make_vector1 chunk e) as [v|err] eqn:Hv; [|done]. simpl.
    destruct (make_vectors1 chunks embeddings) as [vs|err] eqn:Hvs; [|done].
    simpl. intros [= <-]. constructor; [done|]. apply IH; [lia|done].
Qed.

(** X9. [upsert_chunks] calls the index at most once, and only with one
    vector per chunk, each made of the chunk and of the embedding at the
    same index, under the namespace it was given; when the two lists have
    different lengths it raises [ValueError] and calls nothing. *)
Theorem upsert_calls_index_once (chunks : list pydict)
    (embeddings : list Embedding.embedding) (namespace : string) :
  ((upsert chunks embeddings namespace).2 = []
   \/ exists vectors,
        (upsert chunks embeddings namespace).2 = [(vectors, namespace)]
        /\ length chunks = length embeddings
        /\ length vectors = length chunks
        /\ Forall2 (fun ce v => make_vector1 ce.1 ce.2 = Return v)
             (zip chunks embeddings) vectors)
  /\ (length chunks <> length embeddings ->
      exists msg,
        upsert chunks embeddings namespace = (Raise (ValueError msg), [])).
Proof.
  unfold upsert_chunks.
  destruct (length chunks =? length embeddings)%nat eqn:Hlen; simpl.
  - apply Nat.eqb_eq in Hlen. split; [|done].
    destruct chunks as [|chunk chunks'] eqn:Hchunks; [by left|].
    rewrite <- Hchunks in *.
    destruct (make_vectors1 chunks embeddings) as [vectors|e] eqn:Hv;
      [|by left].
    pose proof (make_vectors_spec _ _ _ Hlen Hv) as Hall.
    right. exists vectors.
    assert (Hlv : length vectors = length chunks).
    { rewrite <- (Forall2_length _ _ _ Hall), length_zip_with. lia. }
    by destruct (index_upsert vectors namespace).
  - apply Nat.eqb_neq in Hlen. split; [by left|]. intros _. by eexists.
Qed.

(** X10. The chunks of the chunker, turned into dictionaries, are stored
    with their embeddings whenever there are as many embeddings as chunks:
    no key is missing, the index is called once with one vector per chunk,
    in order, holding the text and the position of the chunk and the
    embedding at the same index, and the result is the response of the
    index, or its failure as an exception. *)
Theorem upsert_chunk_dicts (cs : list Chunker.TextChunk)
    (embeddings : list Embedding.embedding) (namespace : string) :
  cs <> [] ->
  length cs = length embeddings ->
  exists vectors,
    (upsert (Chunker.chunk_to_dict <$> cs) embeddings namespace).2
      = [(vectors, namespace)]
    /\ Forall2
         (fun ce v =>
            vec_values v = ce.2
            /\ vec_metadata v !! "text" = Some (VStr (Chunker.text ce.1))
            /\ vec_metadata v !! "position"
               = Some (VInt (Chunker.position (Chunker.metadata ce.1))))
         (zip cs embeddings) vectors
    /\ (upsert (Chunker.chunk_to_dict <$> cs) embeddings namespace).1
       = match index_upsert vectors namespace with
         | inr n => Return (IndexResponse n)
         | inl e =>
             Raise (Exception ("Failed to upsert vectors to Pinecone: " +:+ e))
         end.
Proof.
  intros Hne Hlen.
  assert (Hvs : exists vectors,
    make_vectors1 (Chunker.chunk_to_dict <$> cs) embeddings = Return vectors
    /\ Forall2
         (fun ce v =>
            vec_values v = ce.2
            /\ vec_metadata v !! "text" = Some (VStr (Chunker.text ce.1))
            /\ vec_metadata v !! "position"
               = Some (VInt (Chunker.position (Chunker.metadata ce.1))))
         (zip cs embeddings) vectors).
  { clear Hne. revert embeddings Hlen.
    induction cs as [|c cs IH]; intros [|e embeddings] Hlen;
      try (simpl in Hlen; lia).
    - exists []. split; [done|constructor].
    - destruct (IH embeddings) as (vs & Hvs & Hall); [simpl in Hlen; lia|].
      eexists (_ :: vs). rewrite fmap_cons. cbn [make_vectors].
      rewrite make_vector_chunk_to_dict. simpl. rewrite Hvs. simpl.
      split; [done|]. constructor; [|done]. simpl.
      split_and!; [done| |].
      + destruct c as [text [source title section position token_count]].
        unfold stored_metadata. simpl.
        by destruct title as [[|a t]|], section as [[|a' t']|].
      + destruct c as [text [source title section position token_count]].
        unfold stored_metadata. simpl.
        by destruct title as [[|a t]|], section as [[|a' t']|]. }
  destruct Hvs as (vectors & Hvs & Hall). exists vectors.
  unfold upsert_chunks. rewrite length_fmap.
  rewrite (proj2 (Nat.eqb_eq _ _) Hlen). simpl.
  destruct cs as [|c cs']; [done|]. rewrite fmap_cons.
  rewrite fmap_cons in Hvs. rewrite Hvs.
  split; [by destruct (index_upsert vectors namespace)|].
  split; [done|]. by destruct (index_upsert vectors namespace).
Qed.

End VectorStoreProperties.

(** ** Retriever *)

Section RetrievalProperties.

Import Retrieval.

Variable embed_post
  : nat -> Embedding.payload -> string + list Embedding.embedding.
Variable embedding_service : Embedding.EmbeddingService.
Variable index_query
  : VectorStore.query_request -> string + list VectorStore.index_match.
Variable self : RetrievalService.

Local Abbreviation retrieve1 :=
  (retrieve embed_post embedding_service index_query self).

(** The loop over the matches gives the chunk of every match, in order,
    when every match has a text that is a string, and raises otherwise. *)
Lemma chunks_of_matches_spec (matches : list VectorStore.index_match) :
  forall acc : list pydict,
    (Forall
       (fun m => exists t,
          VectorStore.match_metadata m !! "text" = Some (VStr t)) matches
     /\ chunks_of_matches matches acc
        = inr (acc ++ (chunk_of_match <$> matches)))
    \/ (Exists
          (fun m => forall t,
             VectorStore.match_metadata m !! "text" <> Some (VStr t)) matches
        /\ exists msg, chunks_of_matches matches acc = inl (TypeError msg)).
Proof.
  induction matches as [|m matches IH]; intros acc; simpl.
  - left. split; [constructor|by rewrite app_nil_r].
  - unfold get_or_none.
    destruct (VectorStore.match_metadata m !! "text") as [v|] eqn:Hm;
      [destruct v|];
      try (right; split; [by left; intros t; rewrite Hm | by eexists]).
    destruct (IH (acc ++ [chunk_of_match m])) as [[Hall ->]|[Hex Hc]].
    + left. split; [constructor; [by eexists|done]|].
      by rewrite <- app_assoc.
    + right. split; [by right|exact Hc].
Qed.

(** With no dictionary among the texts, the loop can only raise for a text
    that is missing or is [None], a boolean or a number: the value cannot
    be subscripted. *)
Lemma chunks_of_matches_raises (matches : list VectorStore.index_match) :
  forall (acc : list pydict) (msg : string),
    Forall
      (fun m => forall d,
         VectorStore.match_metadata m !! "text" <> Some (VDict d)) matches ->
    chunks_of_matches matches acc = inl (TypeError msg) ->
    exists name, msg = "'" +:+ name +:+ "' object is not subscriptable".
Proof.
  induction matches as [|m matches IH]; intros acc msg Hnd; simpl; [done|].
  apply Forall_cons in Hnd as [Hm Hnd]. unfold get_or_none.
  destruct (VectorStore.match_metadata m !! "text") as [v|] eqn:Hv;
    [destruct v|]; try (intros [= <-]; by eexists).
  - by apply IH.
  - by destruct (Hm d).
Qed.

(** The chunks of the retriever all have a text: the reranker reads it
    without a [KeyError]. *)
Lemma texts_of_chunks_of_matches (matches : list VectorStore.index_match) :
  Reranker.texts_of (chunk_of_match <$> matches)
  = Return
      ((fun m =>
          VectorStore.dict_get (VectorStore.match_metadata m) "text" (VStr ""))
       <$> matches).
Proof.
  induction matches as [|m matches IH]; [done|].
  rewrite !fmap_cons. cbn [Reranker.texts_of].
  unfold chunk_of_match at 1.
  rewrite lookup_insert_ne, lookup_insert_eq by done.
  by rewrite IH.
Qed.

(** X11. When [retrieve] returns, the query was not blank, the index was
    asked once, with the embedding of the query, the number of chunks asked
    for and the namespace, and the chunks are those of the matches of the
    index, one per match and in their order; every one has a text, so that
    the reranker can read the texts of the chunks of the retriever. *)
Theorem retrieve_chunks_mirror_matches (query : string)
    (top_k_arg : option Z) (namespace : string)
    (r : retrieve_result) (log : list call) :
  retrieve1 query top_k_arg namespace = (inr r, log) ->
  all_space query = false
  /\ exists matches,
       index_query
         {| VectorStore.query_vector := query_embedding r;
            VectorStore.query_top_k := int_or top_k_arg (top_k self);
            VectorStore.query_namespace := namespace;
            VectorStore.query_filter := None;
            VectorStore.query_include_metadata := true |} = inr matches
       /\ chunks r = chunk_of_match <$> matches
       /\ count r = Z.of_nat (length matches)
       /\ Reranker.texts_of (chunks r)
          = Return
              ((fun m =>
                  VectorStore.dict_get (VectorStore.match_metadata m)
                    "text" (VStr "")) <$> matches).
Proof.
  unfold retrieve. rewrite blank_test.
  destruct (all_space query); [done|]. intros Hrun. split; [done|].
  destruct (Embedding.generate_embedding embed_post embedding_service query)
    as [[emb|e] elog]; [|done].
  unfold VectorStore.query_with_mmr in Hrun.
  destruct (index_query _) as [e|matches] eqn:Hq; [done|].
  destruct (chunks_of_matches_spec matches []) as [[Hall Hc]|[Hex [msg Hc]]];
    rewrite Hc in Hrun; [|done].
  injection Hrun as <- <-. simpl. exists matches.
  split_and!; try done.
  - by rewrite length_fmap.
  - apply texts_of_chunks_of_matches.
Qed.

(** X12. A match whose metadata has no text, or whose text is [None], a
    boolean or a number, makes [retrieve] raise [TypeError] (its log line
    slices what [metadata.get('text')] gives, which cannot be
    subscripted), although the chunk it builds for the match has a text,
    the empty one by default. *)
Theorem retrieve_match_without_text_raises (query : string)
    (top_k_arg : option Z) (namespace : string)
    (emb : option Embedding.embedding)
    (elog : list (event Embedding.payload))
    (matches : list VectorStore.index_match) :
  all_space query = false ->
  Embedding.generate_embedding embed_post embedding_service query
    = (Return emb, elog) ->
  index_query
    {| VectorStore.query_vector := emb;
       VectorStore.query_top_k := int_or top_k_arg (top_k self);
       VectorStore.query_namespace := namespace;
       VectorStore.query_filter := None;
       VectorStore.query_include_metadata := true |} = inr matches ->
  Forall
    (fun m => forall d, VectorStore.match_metadata m !! "text" <> Some (VDict d))
    matches ->
  Exists
    (fun m => forall t, VectorStore.match_metadata m !! "text" <> Some (VStr t))
    matches ->
  (exists name,
     (retrieve1 query top_k_arg namespace).1
     = inl (TypeError ("'" +:+ name +:+ "' object is not subscriptable")))
  /\ Forall (fun m => is_Some (chunk_of_match m !! "text")) matches.
Proof.
  intros Hq Hemb Hidx Hnd Hex. split.
  - unfold retrieve. rewrite blank_test, Hq, Hemb.
    unfold VectorStore.query_with_mmr. rewrite Hidx.
    destruct (chunks_of_matches_spec matches []) as [[Hall Hc]|[_ [msg Hc]]].
    + exfalso. rewrite list.Exists_exists in Hex.
      destruct Hex as (m & Hm & Hno).
      rewrite list.Forall_forall in Hall.
      destruct (Hall m Hm) as [t Ht]. by apply (Hno t).
    + rewrite Hc. simpl.
      destruct (chunks_of_matches_raises matches [] msg Hnd Hc) as [name ->].
      by exists name.
  - apply list.Forall_forall. intros m _. unfold chunk_of_match.
    rewrite lookup_insert_ne, lookup_insert_eq by done. by eexists.
Qed.

End RetrievalProperties.

(** X13. An empty or white-space-only text is refused before anything is
    sent: [generate_embedding], [retrieve] and [rerank] raise [ValueError]
    and make no request, whatever their other arguments. *)
Theorem blank_input_rejected (text : string)
    (embed_post
      : nat -> Embedding.payload -> string + list Embedding.embedding)
    (embedder : Embedding.EmbeddingService)
    (index_query
      : VectorStore.query_request -> string + list VectorStore.index_match)
    (retriever : Retrieval.RetrievalService)
    (rerank_post : nat -> Reranker.payload -> string + list (Z * Qc))
    (reranker : Reranker.RerankerService)
    (top_k_arg : option Z) (namespace : string) (chunks : list pydict) :
  all_space text = true ->
  Embedding.generate_embedding embed_post embedder text
    = (Raise (ValueError "Cannot generate embedding for empty text"), [])
  /\ Retrieval.retrieve embed_post embedder index_query retriever text
       top_k_arg namespace
     = (inl (Retrieval.Raised (ValueError "Query cannot be empty")), [])
  /\ Reranker.rerank rerank_post reranker text chunks top_k_arg
     = (Raise (ValueError "Query cannot be empty"), []).
Proof.
  intros Hb.
  unfold Embedding.generate_embedding, Retrieval.retrieve, Reranker.rerank.
  by rewrite !blank_test, Hb.
Qed.

(** ** Reranker: retries, malformed responses, what is returned *)

Section RerankerMore.

Import Reranker.

Variable post : nat -> payload -> string + list (Z * Qc).
Variable self : RerankerService.



Lemma texts_of_missing (chunks : list pydict) :
  Exists (fun c => c !! "text" = None) chunks ->
  texts_of chunks = Raise (KeyError "'text'").
Proof.
  induction 1 as [c chunks Hc|c chunks Hex IH]; simpl.
  - by rewrite Hc.
  - destruct (c !! "text"); [|done]. by rewrite IH.
Qed.

(** X15. [rerank] with a query that is not blank raises before any request
    when there is no candidate ([ValueError]) and when a candidate has no
    text ([KeyError]). *)
Theorem rerank_rejects_candidates (query : string) (top_k_arg : option Z) :
  all_space query = false ->
  rerank post self query [] top_k_arg
    = (Raise (ValueError "No chunks to rerank"), [])
  /\ (forall chunks,
        Exists (fun c => c !! "text" = None) chunks ->
        rerank post self query chunks top_k_arg
          = (Raise (KeyError "'text'"), [])).
Proof.
  intros Hq. unfold rerank. rewrite blank_test, Hq. split; [done|].
  intros chunks Hex. rewrite (texts_of_missing _ Hex).
  destruct chunks; [by apply Exists_nil in Hex|done].
Qed.



(** Whatever the loop over the results returns is made of candidates with
    a reranker score. *)
Lemma reassociate_from_candidates (chunks : list pydict)
    (results : list (Z * Qc)) :
  forall reranked all_scores out out_scores,
    reassociate chunks results reranked all_scores
      = Return (out, out_scores) ->
    exists new,
      out = reranked ++ new
      /\ Forall
           (fun c => exists chunk score,
              chunk ∈ chunks /\ c = <["reranker_score" := VNum score]> chunk)
           new.
Proof.
  induction results as [|[idx score] results IH];
    intros reranked all_scores out out_scores; simpl.
  - intros [= <- <-]. exists []. by rewrite app_nil_r.
  - destruct (py_index chunks idx) as [chunk|e] eqn:Hidx; [|done]. simpl.
    intros Hrec. apply IH in Hrec as (new & -> & Hnew).
    exists (<["reranker_score" := VNum score]> chunk :: new).
    rewrite <- app_assoc. split; [done|]. constructor; [|done].
    exists chunk, score. split; [|done].
    unfold py_index in Hidx.
    destruct ((0 <=? _) && (_ <? Z.of_nat (length chunks))); [|done].
    destruct (chunks !! Z.to_nat _) eqn:Hl; [|done].
    injection Hidx as <-. by eapply list_elem_of_lookup_2.
Qed.

(** The result of the retry loop is the result of an attempt that went
    through, or the fallback. *)
Lemma attempts_result (p : payload) (chunks : list pydict) (k : Z)
    (remaining : nat) :
  forall (attempt : nat) (r : rerank_result),
    (attempts post self remaining attempt p chunks k).1 = Some r ->
    (exists e, r = fallback_result self chunks k e)
    \/ exists results reranked scores,
         reassociate chunks results [] [] = Return (reranked, scores)
         /\ r = success_result self chunks k reranked scores.
Proof.
  induction remaining as [|remaining IH]; intros attempt r; cbn [attempts];
    [done|].
  destruct (try_attempt post self attempt p chunks k) as [e|r'] eqn:Htry.
  - destruct (Z.of_nat attempt <? max_retries self - 1).
    + specialize (IH (S attempt) r).
      destruct (attempts post self remaining (S attempt) p chunks k)
        as [r'' log]. simpl in *. exact IH.
    + simpl. intros [= <-]. left. by eexists.
  - simpl. intros [= <-]. right. unfold try_attempt in Htry.
    destruct (post attempt p) as [e|results]; [done|].
    destruct (reassociate chunks results [] []) as [[reranked scores]|e]
      eqn:Hre; [|done].
    injection Htry as <-. by eexists _, _, _.
Qed.

(** X17. Whatever [rerank] returns, it returns candidates: every chunk of
    the result is one of the chunks it was given, as it is (fallback) or
    with a reranker score set; with a [top_k] that is not negative, the
    count of the result is the number of its chunks, at most [top_k]. *)
Theorem rerank_returns_candidates (query : string) (chunks : list pydict)
    (top_k_arg : option Z) (r : rerank_result)
    (log : list (event payload)) :
  rerank post self query chunks top_k_arg = (Return (Some r), log) ->
  0 <= int_or top_k_arg (top_k self) ->
  Forall
    (fun c => exists chunk,
       chunk ∈ chunks
       /\ (c = chunk
           \/ exists score, c = <["reranker_score" := VNum score]> chunk))
    (reranked_chunks r)
  /\ count r = Z.of_nat (length (reranked_chunks r))
  /\ count r <= int_or top_k_arg (top_k self).
Proof.
  intros Hrun Hk. unfold rerank in Hrun.
  destruct (negb (str_truthy query) || negb (str_truthy (strip query)));
    [done|].
  destruct chunks as [|c0 chunks0] eqn:Hchunks; [done|].
  rewrite <- Hchunks in *.
  destruct (texts_of chunks) as [texts|e]; [|done].
  destruct (attempts post self (Z.to_nat (max_retries self)) 0
              (make_payload self query chunks texts) chunks
              (int_or top_k_arg (top_k self))) as [res log'] eqn:Hatt.
  injection Hrun as -> ->.
  pose proof (attempts_result (make_payload self query chunks texts) chunks
                (int_or top_k_arg (top_k self))
                (Z.to_nat (max_retries self)) O r) as Hres.
  rewrite Hatt in Hres.
  destruct (Hres eq_refl)
    as [[e ->]|(results & reranked & scores & Hre & ->)]; simpl;
    rewrite (py_slice_to_nonneg _ _ Hk).
  - split_and!.
    + apply list.Forall_forall. intros c Hc. exists c.
      split; [|by left]. by eapply subseteq_take.
    + rewrite length_take. lia.
    + lia.
  - apply reassociate_from_candidates in Hre as (new & -> & Hnew).
    simpl in Hnew. split_and!.
    + apply list.Forall_forall. intros c Hc.
      apply subseteq_take in Hc. rewrite sorted_reverse_perm in Hc.
      rewrite list.Forall_forall in Hnew.
      destruct (Hnew c Hc) as (chunk & score & Hin & ->).
      exists chunk. split; [done|]. right. by exists score.
    + done.
    + rewrite length_take. lia.
Qed.

End RerankerMore.

(** ** Answer synthesizer: retries, labels and citations *)

(** [int(str(n)) == n], for the decimal notation of the prompt. *)
Lemma digit_value_pretty_char (d : N) :
  (d < 10)%N -> LLM.digit_value (pretty_N_char d) = Z.of_N d.
Proof.
  intros Hd.
  assert (d = 0 \/ d = 1 \/ d = 2 \/ d = 3 \/ d = 4 \/ d = 5 \/ d = 6
          \/ d = 7 \/ d = 8 \/ d = 9)%N as Hcases by lia.
  destruct Hcases as [->|[->|[->|[->|[->|[->|[->|[->|[->| ->]]]]]]]]]; done.
Qed.

Lemma pretty_char_isdigit (d : N) : py_isdigit (pretty_N_char d) = true.
Proof. unfold pretty_N_char. by repeat case_match. Qed.

Lemma py_int_pretty_go (x : N) :
  forall s,
    LLM.int_of_digits_from 0 (pretty_N_go x s)
    = LLM.int_of_digits_from (Z.of_N x) s.
Proof.
  induction (N.lt_wf_0 x) as [x _ IH]; intros s.
  assert (x = 0 \/ 0 < x)%N as [->|Hpos] by lia.
  - by rewrite pretty_N_go_0.
  - rewrite pretty_N_go_step by done.
    rewrite IH by (by apply N.div_lt). simpl.
    rewrite digit_value_pretty_char by (by apply N.mod_lt).
    f_equal. rewrite (N.div_mod x 10) at 3 by done. lia.
Qed.

Lemma all_digits_pretty_go (x : N) :
  forall s, all_digits s = true -> all_digits (pretty_N_go x s) = true.
Proof.
  induction (N.lt_wf_0 x) as [x _ IH]; intros s Hs.
  assert (x = 0 \/ 0 < x)%N as [->|Hpos] by lia.
  - by rewrite pretty_N_go_0.
  - rewrite pretty_N_go_step by done.
    apply IH; [by apply N.div_lt|]. simpl.
    by rewrite pretty_char_isdigit.
Qed.

Lemma pretty_go_nonempty (x : N) :
  forall s, (0 < x)%N \/ s <> "" -> pretty_N_go x s <> "".
Proof.
  induction (N.lt_wf_0 x) as [x _ IH]; intros s Hs.
  assert (x = 0 \/ 0 < x)%N as [->|Hpos] by lia.
  - rewrite pretty_N_go_0. destruct Hs as [?|?]; [lia|done].
  - rewrite pretty_N_go_step by done.
    apply IH; [by apply N.div_lt|]. by right.
Qed.

Lemma pretty_nat_digits (n : nat) :
  all_digits (pretty n) = true /\ pretty n <> ""
  /\ LLM.py_int (pretty n) = Z.of_nat n.
Proof.
  unfold pretty, pretty_nat, pretty, pretty_N, LLM.py_int.
  destruct (decide (N.of_nat n = 0%N)) as [H0|Hn0].
  - split_and!; [done|done|]. assert (n = O) as -> by lia. reflexivity.
  - split_and!.
    + by apply all_digits_pretty_go.
    + apply pretty_go_nonempty. left. lia.
    + rewrite py_int_pretty_go. simpl. lia.
Qed.

Lemma span_digits_all (d rest : string) :
  all_digits d = true ->
  LLM.span_digits (d +:+ String "]" rest) = (d, String "]" rest).
Proof.
  intros Hd. induction d as [|c d IH]; [done|].
  simpl in Hd. apply andb_true_iff in Hd as [Hc Hd].
  rewrite append_cons_str. simpl. rewrite Hc, (IH Hd). done.
Qed.

(** A text that is one marker gives its number. *)
Lemma findall_one_marker (d : string) :
  all_digits d = true -> d <> "" ->
  LLM.findall_citations ("[" +:+ d +:+ "]") = [d].
Proof.
  intros Hd Hne. unfold LLM.findall_citations.
  change ("[" +:+ d +:+ "]") with (String "[" (d +:+ "]")).
  simpl String.length. cbn [LLM.findall_fuel].
  unfold LLM.match_citation. rewrite (span_digits_all d "" Hd).
  destruct d as [|c d]; [done|]. reflexivity.
Qed.

Section LLMMore.

Import LLM.

Variable py_str : value -> string.
Variable create : nat -> request -> string + completion.
Variable self : LLMService.

Local Abbreviation attempts1 := (attempts create self).
Local Abbreviation answer1 := (generate_answer py_str create self).

(** The request of [generate_answer]. *)
Lemma generate_answer_valid_input (query : string) (chunks : list pydict)
    (max_tokens_arg : option Z) (sources_text : string) :
  all_space query = false ->
  chunks <> [] ->
  _format_sources py_str chunks = Return sources_text ->
  answer1 query chunks max_tokens_arg
  = (Return
       (fst (attempts1 (Z.to_nat (max_retries self)) 0
               {| req_model := model self;
                  req_content := _construct_prompt query sources_text;
                  req_temperature := temperature self;
                  req_max_tokens := int_or max_tokens_arg (max_tokens self) |}
               chunks)),
     snd (attempts1 (Z.to_nat (max_retries self)) 0
            {| req_model := model self;
               req_content := _construct_prompt query sources_text;
               req_temperature := temperature self;
               req_max_tokens := int_or max_tokens_arg (max_tokens self) |}
            chunks)).
Proof.
  intros Hq Hne Hsrc. unfold generate_answer. rewrite blank_test, Hq.
  destruct chunks as [|c chunks]; [done|]. rewrite Hsrc. simpl.
  by destruct (attempts1 _ _ _ _).
Qed.






Lemma format_sources_from_label (chunks : list pydict) :
  forall (i : nat) (sources : list string) (n : nat) (chunk : pydict),
    format_sources_from py_str i chunks = Return sources ->
    chunks !! n = Some chunk ->
    exists body,
      sources !! n = Some ("[" +:+ pretty (i + n)%nat +:+ "] " +:+ body).
Proof.
  induction chunks as [|c chunks IH]; intros i sources n chunk; [done|].
  cbn [format_sources_from].
  destruct (format_source py_str i c) as [s|e] eqn:Hs; [|done]. simpl.
  destruct (format_sources_from py_str (S i) chunks) as [ss|e] eqn:Hss;
    [|done]. simpl.
  intros [= <-]. destruct n as [|n]; simpl.
  - intros _. rewrite Nat.add_0_r. unfold format_source in Hs.
    destruct (dict_get c "metadata" (VDict ∅)); try done.
    simpl in Hs. injection Hs as <-.
    destruct (truthy _); eexists;
      by rewrite ?append_assoc_str.
  - intros Hn. destruct (IH _ _ _ _ Hss Hn) as [body ->].
    exists body. by rewrite Nat.add_succ_r.
Qed.

(** X20. The label a source gets in the prompt and the number a marker is
    read as agree: the source made of the chunk at index [n] of the list is
    labelled with [n + 1] in brackets, and a marker with that label is
    bound by [_extract_citations] to that chunk, with [n + 1] as its
    citation number. *)
Theorem source_label_round_trip (chunks : list pydict)
    (sources : list string) (n : nat) (chunk : pydict) :
  format_sources_from py_str 1 chunks = Return sources ->
  chunks !! n = Some chunk ->
  (exists body,
     sources !! n = Some ("[" +:+ pretty (S n) +:+ "] " +:+ body))
  /\ _extract_citations ("[" +:+ pretty (S n) +:+ "]") chunks
     = [<["citation_number" := VInt (Z.of_nat (S n))]> chunk].
Proof.
  intros Hsrc Hn. split.
  - by apply (format_sources_from_label chunks 1 sources n chunk).
  - destruct (pretty_nat_digits (S n)) as (Hd & Hne & Hint).
    unfold _extract_citations.
    rewrite (findall_one_marker _ Hd Hne). cbn [cited_loop].
    rewrite Hint. rewrite decide_False by apply not_elem_of_empty.
    cbn [cited_loop app map_loop].
    assert ((0 <=? Z.of_nat (S n) - 1)
            && (Z.of_nat (S n) - 1 <? Z.of_nat (length chunks)) = true) as ->.
    { apply lookup_lt_Some in Hn.
      apply andb_true_iff. split; [apply Z.leb_le|apply Z.ltb_lt]; lia. }
    replace (Z.to_nat (Z.of_nat (S n) - 1)) with n by lia.
    by rewrite Hn.
Qed.

End LLMMore.

(** X21. With [max_retries] at zero or below no attempt is made: past the
    checks of their arguments, [generate_answer], [rerank],
    [generate_embeddings_batch] and [generate_embedding] send nothing and
    return [None], neither a result nor an error. *)
Theorem no_attempt_returns_none (text : string) (chunks : list pydict)
    (texts : list value) (sources_text : string) (py_str : value -> string)
    (create : nat -> LLM.request -> string + LLM.completion)
    (llm : LLM.LLMService)
    (rerank_post : nat -> Reranker.payload -> string + list (Z * Qc))
    (reranker : Reranker.RerankerService)
    (embed_post
      : nat -> Embedding.payload -> string + list Embedding.embedding)
    (embedder : Embedding.EmbeddingService)
    (max_tokens_arg top_k_arg : option Z) :
  all_space text = false ->
  chunks <> [] ->
  Reranker.texts_of chunks = Return texts ->
  LLM._format_sources py_str chunks = Return sources_text ->
  LLM.max_retries llm <= 0 ->
  Reranker.max_retries reranker <= 0 ->
  Embedding.max_retries embedder <= 0 ->
  LLM.generate_answer py_str create llm text chunks max_tokens_arg
    = (Return None, [])
  /\ Reranker.rerank rerank_post reranker text chunks top_k_arg
     = (Return None, [])
  /\ Embedding.generate_embeddings_batch embed_post embedder [text]
     = (Return None, [])
  /\ Embedding.generate_embedding embed_post embedder text
     = (Return None, []).
Proof.
  intros Hq Hne Htexts Hsrc Hllm Hrr Hemb. split_and!.
  - rewrite (generate_answer_valid_input _ _ _ _ _ _ _ Hq Hne Hsrc).
    by replace (Z.to_nat (LLM.max_retries llm)) with O by lia.
  - rewrite (rerank_valid_input _ _ _ _ _ _ Hq Hne Htexts).
    by replace (Z.to_nat (Reranker.max_retries reranker)) with O by lia.
  - unfold Embedding.generate_embeddings_batch.
    rewrite filter_cons, decide_True; cycle 1.
    { rewrite is_valid_text_nonblank. by rewrite Hq. }
    by replace (Z.to_nat (Embedding.max_retries embedder)) with O by lia.
  - unfold Embedding.generate_embedding. rewrite blank_test, Hq. simpl.
    by replace (Z.to_nat (Embedding.max_retries embedder)) with O by lia.
Qed.

(** ** The properties above on concrete inputs *)

Lemma chunk_metadata_preserved_witness :
  Chunker.mk_chunk "notes" (Some "Title") None "D e. F g h i." 1 6
    ∈ Chunker.chunk_text encode_words small_chunker
        "A b c. D e. F g h i. J." "notes" (Some "Title") None
  /\ Chunker.source
       (Chunker.metadata
          (Chunker.mk_chunk "notes" (Some "Title") None "D e. F g h i." 1 6))
     = "notes".
Proof.
  assert (Hin : Chunker.mk_chunk "notes" (Some "Title") None
                  "D e. F g h i." 1 6
                ∈ Chunker.chunk_text encode_words small_chunker
                    "A b c. D e. F g h i. J." "notes" (Some "Title") None).
  { apply list_elem_of_further, list_elem_of_here. }
  split; [exact Hin|].
  exact (proj1 (chunk_metadata_preserved encode_words small_chunker "notes"
                  (Some "Title") None "A b c. D e. F g h i. J." _ Hin)).
Defined.

Lemma chunks_partition_sentences_witness :
  all_space "A b c. D e. F g h i. J." = false
  /\ exists parts : list (list string * list string),
       concat (snd <$> parts) = Chunker.sentences_of "A b c. D e. F g h i. J."
       /\ seeds_from [] parts.
Proof.
  split; [reflexivity|].
  destruct (chunks_partition_sentences encode_words small_chunker
              "user_input" None None "A b c. D e. F g h i. J." eq_refl)
    as (parts & _ & Hconcat & Hseeds & _).
  exists parts. split; [exact Hconcat|exact Hseeds].
Defined.



Lemma chunk_texts_embedded_unfiltered_witness :
  (forall attempt p out,
     embed_ok attempt p = inr out ->
     length out = length (Embedding.payload_input p))
  /\ exists embeddings log,
       Embedding.generate_embeddings_batch embed_ok example_embedder
         (Chunker.text <$>
            Chunker.chunk_text encode_words small_chunker
              "A b c. D e. F g h i. J." "user_input" None None)
       = (Return (Some embeddings), log)
       /\ length embeddings
          = length
              (Chunker.chunk_text encode_words small_chunker
                 "A b c. D e. F g h i. J." "user_input" None None).
Proof.
  assert (Hcontract : forall attempt p out,
            embed_ok attempt p = inr out ->
            length out = length (Embedding.payload_input p)).
  { intros attempt p out [= <-]. apply length_fmap. }
  split; [exact Hcontract|].
  eexists _, _. split; [reflexivity|].
  exact (proj1 (chunk_texts_embedded_unfiltered encode_words small_chunker
                  embed_ok example_embedder "A b c. D e. F g h i. J."
                  "user_input" None None _ _ Hcontract eq_refl)).
Defined.

Lemma upsert_chunk_dicts_witness :
  [Chunker.mk_chunk "notes" None None "A b c." 0 3] <> []
  /\ length [Chunker.mk_chunk "notes" None None "A b c." 0 3]
     = length [[Q2Qc 0]]
  /\ exists vectors,
       (VectorStore.upsert_chunks example_py_str example_hash index_upsert_ok
          (Chunker.chunk_to_dict <$>
             [Chunker.mk_chunk "notes" None None "A b c." 0 3])
          [[Q2Qc 0]] "").2 = [(vectors, ""%string)].
Proof.
  assert (H1 : [Chunker.mk_chunk "notes" None None "A b c." 0 3] <> [])
    by discriminate.
  split; [exact H1|]. split; [reflexivity|].
  destruct (upsert_chunk_dicts example_py_str example_hash index_upsert_ok
              [Chunker.mk_chunk "notes" None None "A b c." 0 3]
              [[Q2Qc 0]] "" H1 eq_refl) as (vectors & Hlog & _).
  exists vectors. exact Hlog.
Defined.

Lemma retrieve_chunks_mirror_matches_witness :
  exists r log,
    Retrieval.retrieve embed_ok example_embedder index_query_a
      example_retriever "What is attention?" None "" = (inr r, log)
    /\ Retrieval.chunks r = Retrieval.chunk_of_match <$> [match_a].
Proof.
  eexists _, _. split; [reflexivity|].
  destruct (retrieve_chunks_mirror_matches embed_ok example_embedder
              index_query_a example_retriever "What is attention?" None ""
              _ _ eq_refl) as (_ & matches & Hq & Hchunks & _).
  injection Hq as <-. exact Hchunks.
Defined.

Lemma retrieve_match_without_text_raises_witness :
  all_space "What is attention?" = false
  /\ Exists
       (fun m => forall t,
          VectorStore.match_metadata m !! "text" <> Some (VStr t))
       [match_a; match_no_text]
  /\ (Retrieval.retrieve embed_ok example_embedder index_query_no_text
        example_retriever "What is attention?" None "").1
     = inl (Retrieval.TypeError "'NoneType' object is not subscriptable").
Proof.
  assert (H1 : all_space "What is attention?" = false) by reflexivity.
  assert (H2 : Exists
                 (fun m => forall t,
                    VectorStore.match_metadata m !! "text" <> Some (VStr t))
                 [match_a; match_no_text]).
  { apply Exists_cons_tl, Exists_cons_hd. intros t. discriminate. }
  assert (H3 : Forall
                 (fun m => forall d,
                    VectorStore.match_metadata m !! "text"
                    <> Some (VDict d))
                 [match_a; match_no_text]).
  { repeat constructor; intros d; discriminate. }
  split; [exact H1|]. split; [exact H2|].
  destruct (proj1 (retrieve_match_without_text_raises embed_ok
                     example_embedder index_query_no_text example_retriever
                     "What is attention?" None "" _ _ _ H1 eq_refl eq_refl
                     H3 H2)) as [name Hrun].
  reflexivity.
Defined.

Lemma blank_input_rejected_witness :
  all_space "  " = true
  /\ Reranker.rerank rerank_down example_reranker "  " [chunk_a] None
     = (Raise (ValueError "Query cannot be empty"), []).
Proof.
  split; [reflexivity|].
  exact (proj2 (proj2 (blank_input_rejected "  " embed_ok example_embedder
                         index_query_a example_retriever rerank_down
                         example_reranker None "" [chunk_a] eq_refl))).
Defined.


Lemma rerank_rejects_candidates_witness :
  all_space "What is attention?" = false
  /\ Reranker.rerank rerank_down example_reranker "What is attention?" []
       None = (Raise (ValueError "No chunks to rerank"), []).
Proof.
  split; [reflexivity|].
  exact (proj1 (rerank_rejects_candidates rerank_down example_reranker
                  "What is attention?" None eq_refl)).
Defined.


Lemma rerank_returns_candidates_witness :
  0 <= int_or None (Reranker.top_k example_reranker)
  /\ exists r log,
       Reranker.rerank rerank_tied example_reranker "What is attention?"
         [chunk_a; chunk_b] None = (Return (Some r), log)
       /\ Reranker.count r = Z.of_nat (length (Reranker.reranked_chunks r)).
Proof.
  assert (Hk : 0 <= int_or None (Reranker.top_k example_reranker))
    by (vm_compute; discriminate).
  split; [exact Hk|].
  eexists _, _. split; [reflexivity|].
  exact (proj1 (proj2 (rerank_returns_candidates rerank_tied example_reranker
                         "What is attention?" [chunk_a; chunk_b] None _ _
                         eq_refl Hk))).
Defined.



Lemma source_label_round_trip_witness :
  [chunk_a; chunk_b] !! 1%nat = Some chunk_b
  /\ exists sources,
       LLM.format_sources_from example_py_str 1 [chunk_a; chunk_b]
         = Return sources
       /\ LLM._extract_citations ("[" +:+ pretty 2%nat +:+ "]")
            [chunk_a; chunk_b]
          = [<["citation_number" := VInt (Z.of_nat 2)]> chunk_b].
Proof.
  split; [reflexivity|].
  eexists. split; [reflexivity|].
  exact (proj2 (source_label_round_trip example_py_str [chunk_a; chunk_b]
                  _ 1 chunk_b eq_refl eq_refl)).
Defined.

Lemma no_attempt_returns_none_witness :
  all_space "What is attention?" = false
  /\ [chunk_a; chunk_b] <> []
  /\ LLM.max_retries llm_no_attempt <= 0
  /\ Reranker.max_retries reranker_no_attempt <= 0
  /\ Embedding.max_retries embedder_no_attempt <= 0
  /\ Reranker.rerank rerank_tied reranker_no_attempt "What is attention?"
       [chunk_a; chunk_b] None = (Return None, []).
Proof.
  assert (H1 : all_space "What is attention?" = false) by reflexivity.
  assert (H2 : [chunk_a; chunk_b] <> []) by discriminate.
  assert (H3 : LLM._format_sources example_py_str [chunk_a; chunk_b]
               = Return example_sources_text) by reflexivity.
  assert (H5 : LLM.max_retries llm_no_attempt <= 0)
    by (vm_compute; discriminate).
  assert (H6 : Reranker.max_retries reranker_no_attempt <= 0)
    by (vm_compute; discriminate).
  assert (H7 : Embedding.max_retries embedder_no_attempt <= 0)
    by (vm_compute; discriminate).
  split; [exact H1|]. split; [exact H2|]. split; [exact H5|].
  split; [exact H6|]. split; [exact H7|].
  exact (proj1 (proj2 (no_attempt_returns_none "What is attention?"
                         [chunk_a; chunk_b] [VStr "alpha"; VStr "beta"]
                         example_sources_text example_py_str llm_answers
                         llm_no_attempt rerank_tied reranker_no_attempt
                         embed_ok embedder_no_attempt None None
                         H1 H2 texts_of_example H3 H5 H6 H7))).
Defined.
